(** * Waveform parsing and state segmentation: scripts/analyze_vcd_metrics.py

    A shallow embedding of [twos_complement], [parse_vcd_lightweight] and
    [parse_vcd_by_state], and the properties of the header resolver, the
    event decoder, the sampler, the length reconciler and the state
    segmenter.

    Conventions of the embedding:
    - a file is the list of its lines, in the order the iteration
      [for line in f] yields them; the text is ASCII; a file that cannot
      be opened or read is outside of the model;
    - Python integers are [Z]; a numpy array of integers is the list of
      its values (the 64-bit storage of numpy is not modelled);
    - a Python [dict] is an association list in insertion order
      ([PyDict]): assigning to a key that is present keeps its position,
      a new key goes last, iteration follows the list;
    - an exception that leaves a function is an explicit result
      ([Raise], [Raised]); the [print] calls have no effect on the
      values computed and are left out;
    - floating point is not modelled: where [twos_complement], with a
      negative number of bits, gives a float or fails on one, the
      embedding gives [None], and the index array of [np.linspace] is a
      parameter of [parse_vcd_by_state], with numpy's contract as
      hypotheses. *)

From Stdlib Require Import ZArith List String Ascii Bool Lia Permutation.
Import ListNotations.
Local Open Scope string_scope.
Local Open Scope list_scope.
Local Open Scope Z_scope.

Set Implicit Arguments.

(** ** Python strings *)

Module PyStr.

(** [str.isspace] on ASCII: TAB..CR, FS..US and the space. *)
Definition is_space (c : ascii) : bool :=
  let n := nat_of_ascii c in
  ((9 <=? n) && (n <=? 13) || (28 <=? n) && (n <=? 32))%nat.

Fixpoint lstrip (s : string) : string :=
  match s with
  | EmptyString => EmptyString
  | String c r => if is_space c then lstrip r else s
  end.

Fixpoint rstrip (s : string) : string :=
  match s with
  | EmptyString => EmptyString
  | String c r =>
      match rstrip r with
      | EmptyString => if is_space c then EmptyString else String c EmptyString
      | r' => String c r'
      end
  end.

(** [s.strip()] *)
Definition strip (s : string) : string := rstrip (lstrip s).

(** [s.startswith(p)] *)
Fixpoint startswith (p s : string) : bool :=
  match p, s with
  | EmptyString, _ => true
  | String _ _, EmptyString => false
  | String a p', String b s' => Ascii.eqb a b && startswith p' s'
  end.

(** [sub in s] *)
Fixpoint contains (sub s : string) : bool :=
  startswith sub s
  || match s with
     | EmptyString => false
     | String _ r => contains sub r
     end.

(** [s[1:]] *)
Definition tail (s : string) : string :=
  match s with
  | EmptyString => EmptyString
  | String _ r => r
  end.

(** [s.split()]: the maximal runs of non-space characters. *)
Fixpoint split_ws (s : string) : list string :=
  match s with
  | EmptyString => []
  | String c r =>
      if is_space c then split_ws r
      else
        match r with
        | EmptyString => [String c EmptyString]
        | String c' _ =>
            if is_space c' then String c EmptyString :: split_ws r
            else
              match split_ws r with
              | w :: ws => String c w :: ws
              | [] => [String c EmptyString]
              end
        end
  end.

(** [s.split(sep)] for a one-character separator: never empty. *)
Fixpoint split_on (sep : ascii) (s : string) : list string :=
  match s with
  | EmptyString => [EmptyString]
  | String c r =>
      if Ascii.eqb c sep then EmptyString :: split_on sep r
      else
        match split_on sep r with
        | w :: ws => String c w :: ws
        | [] => [String c EmptyString]
        end
  end.

(** The digit table of [int()]: 0-9, then a-z and A-Z as 10..35, and 37
    for every other character. *)
Definition digit_value (c : ascii) : nat :=
  let n := nat_of_ascii c in
  (if (48 <=? n) && (n <=? 57) then n - 48
   else if (97 <=? n) && (n <=? 122) then n - 87
   else if (65 <=? n) && (n <=? 90) then n - 55
   else 37)%nat.

(** The digit scan of [int()]: digits below [base], single underscores
    between them; two underscores in a row or one at the end are an
    error.  Returns the value, whether a character was consumed, and
    the text left. *)
Fixpoint scan_digits (base : nat) (prev_us consumed : bool) (acc : Z)
    (s : string) : option (Z * bool * string) :=
  match s with
  | EmptyString => if prev_us then None else Some (acc, consumed, s)
  | String c r =>
      if Ascii.eqb c "_" then
        if prev_us then None else scan_digits base true true acc r
      else if (digit_value c <? base)%nat then
        scan_digits base false true
          (acc * Z.of_nat base + Z.of_nat (digit_value c)) r
      else if prev_us then None else Some (acc, consumed, s)
  end.

(** The white space [int()] skips around a number: TAB..CR and the
    space.  The separators FS..US, which [str.strip] and [str.split]
    take for white space, are not skipped. *)
Definition is_c_space (c : ascii) : bool :=
  let n := nat_of_ascii c in
  ((9 <=? n) && (n <=? 13) || (n =? 32))%nat.

Fixpoint skip_c_space (s : string) : string :=
  match s with
  | EmptyString => EmptyString
  | String c r => if is_c_space c then skip_c_space r else s
  end.

(** [int(s, base)] for base 2 or 10, as an option: [None] is
    [ValueError].  Surrounding white space, one sign, for base 2 the
    prefix 0b or 0B (and one underscore after it), then the digits.
    The limit on the number of decimal digits
    ([sys.int_max_str_digits], a setting of the interpreter) is not
    modelled. *)
Definition py_int (base : nat) (s : string) : option Z :=
  let s1 := skip_c_space s in
  let '(neg, s2) :=
    match s1 with
    | String "+" r => (false, r)
    | String "-" r => (true, r)
    | _ => (false, s1)
    end in
  let s3 :=
    if (base =? 2)%nat then
      match s2 with
      | String "0" (String c r) =>
          if Ascii.eqb c "b" || Ascii.eqb c "B" then
            match r with
            | String "_" r' => r'
            | _ => r
            end
          else s2
      | _ => s2
      end
    else s2 in
  match s3 with
  | String "_" _ => None
  | _ =>
      match scan_digits base false false 0 s3 with
      | Some (v, true, rest) =>
          match skip_c_space rest with
          | EmptyString => Some (if neg then - v else v)
          | _ => None
          end
      | _ => None
      end
  end.

End PyStr.

(** ** Python dictionaries, in insertion order *)

Module PyDict.

Section Dict.
Context {V : Type}.

Definition dict := list (string * V).

(** [d.get(k)] *)
Fixpoint get (k : string) (d : dict) : option V :=
  match d with
  | [] => None
  | (k', v) :: r => if String.eqb k' k then Some v else get k r
  end.

(** [k in d] *)
Definition mem (k : string) (d : dict) : bool :=
  match get k d with
  | Some _ => true
  | None => false
  end.

(** [d[k] = v] *)
Fixpoint set (k : string) (v : V) (d : dict) : dict :=
  match d with
  | [] => [(k, v)]
  | (k', v') :: r =>
      if String.eqb k' k then (k, v) :: r else (k', v') :: set k v r
  end.

Definition keys (d : dict) : list string := map fst d.
Definition values (d : dict) : list V := map snd d.

End Dict.

Arguments dict V : clear implicits.

End PyDict.

Import PyStr PyDict.

(** ** twos_complement *)

(** The integers from which the conversion of an [int] to a [float]
    raises [OverflowError]. *)
Definition float_overflow : Z := 2 ^ 1024 - 2 ^ 970.

(** [twos_complement(val, bits, signed)].  For [bits >= 1] all the
    arithmetic is on integers.  For [bits = 0] the threshold
    [2**(bits-1)] is the float 0.5, so the test is [val >= 1], and
    [2**bits] is the integer 1.  For [bits < 0] both powers are floats.
    The threshold [2**(bits-1)] is a positive float, or 0.0 when
    [bits - 1] is below -1074; computing it raises [OverflowError] when
    the exponent is too large for a float.  A value below the threshold
    is returned as it is, an integer; otherwise the result
    [val - 2**bits] is a float (or one more [OverflowError]).  [None]
    stands for the results that are not integers. *)
Definition twos_complement (val bits : Z) (signed : bool) : option Z :=
  if negb signed then Some val
  else if bits <? 0 then
    if bits - 1 <=? - float_overflow then None
    else if val <? 0 then Some val
    else if (val =? 0) && (-1074 <=? bits - 1) then Some val
    else None
  else if bits =? 0 then
    if 1 <=? val then Some (val - 1) else Some val
  else if 2 ^ (bits - 1) <=? val then Some (val - 2 ^ bits)
  else Some val.

Definition UNSIGNED_SIGNALS : list string :=
  ["state_select"; "phase_pattern"; "oscillator_derived_pattern";
   "ca3_learning"; "ca3_recalling"; "ca3_debug"].

Definition in_set (s : string) (l : list string) : bool :=
  existsb (String.eqb s) l.

(** ** parse_vcd_lightweight, first pass: the header *)

Record header_tables : Type := {
  signal_ids : dict string;
  signal_widths : dict Z
}.

Definition empty_tables : header_tables :=
  {| signal_ids := []; signal_widths := [] |}.

(** The body of the first loop for a line that does not contain
    [$enddefinitions]. *)
Definition header_line (signals_of_interest : list string) (line : string)
    (tb : header_tables) : header_tables :=
  if startswith "$var" line then
    let parts := split_ws line in
    if (5 <=? List.length parts)%nat then
      let var_type := nth 1 parts "" in
      if negb (in_set var_type ["wire"; "reg"; "integer"]) then tb
      else
        match py_int 10 (nth 2 parts "") with
        | None => tb
        | Some width =>
            let var_id := nth 3 parts "" in
            let var_name := nth 4 parts "" in
            if String.eqb var_name "" then tb
            else
              match split_ws var_name with
              | [] => tb
              | p0 :: _ =>
                  let base_name := hd "" (split_on "[" p0) in
                  match find (fun sig => String.eqb sig base_name)
                             signals_of_interest with
                  | Some sig =>
                      {| signal_ids := set var_id sig (signal_ids tb);
                         signal_widths := set var_id width (signal_widths tb) |}
                  | None => tb
                  end
              end
        end
    else tb
  else tb.

(** The first loop: it stops at the first line that contains
    [$enddefinitions]. *)
Fixpoint header_pass (signals_of_interest : list string)
    (lines : list string) (tb : header_tables) : header_tables :=
  match lines with
  | [] => tb
  | line :: rest =>
      if contains "$enddefinitions" line then tb
      else header_pass signals_of_interest rest
             (header_line signals_of_interest line tb)
  end.

(** ** parse_vcd_lightweight, second pass: events and samples *)

Inductive exn : Type := ValueError | KeyError | IndexError.

Record decoder_state : Type := {
  current_time : Z;
  sample_count : Z;
  last_values : dict Z;
  signal_data : dict (list Z)
}.

(** What one iteration of the second loop does: go on to the next line,
    leave the loop ([break]), raise, or leave the integers (see
    [twos_complement]). *)
Inductive outcome : Type :=
| Continue (st : decoder_state)
| Break (st : decoder_state)
| Raise (e : exn)
| NonInteger.

(** The sampler: for every identifier of [signal_ids], in the order of
    the table, append its last value (when it has one) to the sequence
    of its signal name.  [None] is the [KeyError] of
    [signal_data[sig_name]]. *)
Fixpoint snapshot (ids : dict string) (last : dict Z)
    (data : dict (list Z)) : option (dict (list Z)) :=
  match ids with
  | [] => Some data
  | (var_id, sig_name) :: r =>
      match get var_id last with
      | None => snapshot r last data
      | Some v =>
          match get sig_name data with
          | None => None
          | Some l => snapshot r last (set sig_name (l ++ [v]) data)
          end
      end
  end.

Definition decode_line (tb : header_tables) (max_samples : Z)
    (raw : string) (st : decoder_state) : outcome :=
  let line := strip raw in
  if startswith "#" line then
    match py_int 10 (tail line) with
    | None => Raise ValueError
    | Some t =>
        let cnt := sample_count st + 1 in
        match (if cnt mod 10 =? 0
               then snapshot (signal_ids tb) (last_values st) (signal_data st)
               else Some (signal_data st)) with
        | None => Raise KeyError
        | Some data =>
            let st' := {| current_time := t; sample_count := cnt;
                          last_values := last_values st;
                          signal_data := data |} in
            if max_samples * 10 <=? cnt then Break st' else Continue st'
        end
    end
  else if startswith "b" line then
    let parts := split_ws line in
    if (List.length parts =? 2)%nat then
      let bin_val := tail (nth 0 parts "") in
      let var_id := nth 1 parts "" in
      match get var_id (signal_ids tb) with
      | None => Continue st
      | Some sig_name =>
          match py_int 2 bin_val with
          | None => Continue st
          | Some val =>
              let width :=
                match get var_id (signal_widths tb) with
                | Some w => w
                | None => 18
                end in
              let signed := negb (in_set sig_name UNSIGNED_SIGNALS) in
              match twos_complement val width signed with
              | None => NonInteger
              | Some v =>
                  Continue {| current_time := current_time st;
                              sample_count := sample_count st;
                              last_values := set var_id v (last_values st);
                              signal_data := signal_data st |}
              end
          end
      end
    else Continue st
  else
    match line with
    | String val_char (String c r as var_id) =>
        if in_set (String val_char "") ["0"; "1"; "x"; "X"; "z"; "Z"] then
          if mem var_id (signal_ids tb) then
            if Ascii.eqb val_char "1" then
              Continue {| current_time := current_time st;
                          sample_count := sample_count st;
                          last_values := set var_id 1 (last_values st);
                          signal_data := signal_data st |}
            else if Ascii.eqb val_char "0" then
              Continue {| current_time := current_time st;
                          sample_count := sample_count st;
                          last_values := set var_id 0 (last_values st);
                          signal_data := signal_data st |}
            else Continue st
          else Continue st
        else Continue st
    | _ => Continue st
    end.

(** The second loop over the lines of the file. *)
Fixpoint decode_lines (tb : header_tables) (max_samples : Z)
    (lines : list string) (st : decoder_state) : outcome :=
  match lines with
  | [] => Continue st
  | line :: rest =>
      match decode_line tb max_samples line st with
      | Continue st' => decode_lines tb max_samples rest st'
      | o => o
      end
  end.

(** [{sig: [] for sig in signals_of_interest if sig in signal_ids.values()}] *)
Fixpoint init_signal_data (signals_of_interest : list string)
    (ids : dict string) (acc : dict (list Z)) : dict (list Z) :=
  match signals_of_interest with
  | [] => acc
  | sig :: r =>
      init_signal_data r ids
        (if in_set sig (values ids) then set sig [] acc else acc)
  end.

Definition initial_state (signals_of_interest : list string)
    (tb : header_tables) : decoder_state :=
  {| current_time := 0; sample_count := 0; last_values := [];
     signal_data := init_signal_data signals_of_interest (signal_ids tb) [] |}.

(** The result dictionary: the signals whose sequence is not empty. *)
Definition nonempty_series (data : dict (list Z)) : dict (list Z) :=
  filter (fun kv => negb (Nat.eqb (List.length (snd kv)) 0)) data.

Inductive result (A : Type) : Type :=
| Ok (a : A)
| Raised (e : exn)
| LeftIntegers.

Arguments Ok {A} a.
Arguments Raised {A} e.
Arguments LeftIntegers {A}.

Definition parse_vcd_lightweight (vcd_file : list string)
    (signals_of_interest : list string) (max_samples : Z)
    : result (dict (list Z)) :=
  let tb := header_pass signals_of_interest vcd_file empty_tables in
  match decode_lines tb max_samples vcd_file
          (initial_state signals_of_interest tb) with
  | Continue st | Break st => Ok (nonempty_series (signal_data st))
  | Raise e => Raised e
  | NonInteger => LeftIntegers
  end.

(** ** parse_vcd_by_state *)

Definition state_names : list string :=
  ["NORMAL"; "ANESTHESIA"; "PSYCHEDELIC"; "FLOW"; "MEDITATION"].

(** [min(len(arr) for arr in data.values())]; [None] is the
    [ValueError] of [min] on nothing. *)
Definition min_len (data : dict (list Z)) : option nat :=
  match values data with
  | [] => None
  | a :: r =>
      Some (fold_left (fun m arr => Nat.min m (List.length arr)) r
              (List.length a))
  end.

(** [arr[indices]] for an array of indices; [None] is [IndexError]. *)
Fixpoint take_indices (arr : list Z) (indices : list nat)
    : option (list Z) :=
  match indices with
  | [] => Some []
  | i :: r =>
      match nth_error arr i, take_indices arr r with
      | Some v, Some vs => Some (v :: vs)
      | _, _ => None
      end
  end.

(** [arr == state_idx], element by element. *)
Definition eq_mask (arr : list Z) (state_idx : Z) : list bool :=
  map (fun v => v =? state_idx) arr.

(** [np.any(mask)] *)
Definition any (mask : list bool) : bool := existsb (fun b => b) mask.

(** [values[mask]] for a boolean mask; [None] is the [IndexError] of a
    mask whose length is not that of the array. *)
Fixpoint bool_index (values : list Z) (mask : list bool)
    : option (list Z) :=
  match values, mask with
  | [], [] => Some []
  | v :: vs, m :: ms =>
      match bool_index vs ms with
      | Some r => Some (if m then v :: r else r)
      | None => None
      end
  | _, _ => None
  end.

(** The inner loop of the segmenter: every signal but [state_select],
    restricted to the rows of the mask. *)
Fixpoint select_rows (entries : dict (list Z)) (mask : list bool)
    : option (dict (list Z)) :=
  match entries with
  | [] => Some []
  | (sig_name, vals) :: r =>
      if String.eqb sig_name "state_select" then select_rows r mask
      else
        match bool_index vals mask, select_rows r mask with
        | Some v, Some d => Some ((sig_name, v) :: d)
        | _, _ => None
        end
  end.

(** The loop over [enumerate(state_names)]. *)
Fixpoint segment_loop (data : dict (list Z)) (state_select : list Z)
    (names : list string) (state_idx : Z)
    (state_data : dict (dict (list Z)))
    : option (dict (dict (list Z))) :=
  match names with
  | [] => Some state_data
  | state_name :: r =>
      let mask := eq_mask state_select state_idx in
      if any mask then
        match select_rows data mask with
        | Some seg =>
            segment_loop data state_select r (state_idx + 1)
              (set state_name seg state_data)
        | None => None
        end
      else segment_loop data state_select r (state_idx + 1) state_data
  end.

(** The segmenter (the code after the resampling loop). *)
Definition segment_states (data : dict (list Z))
    : result (dict (dict (list Z))) :=
  match get "state_select" data with
  | None => Raised KeyError
  | Some state_select =>
      match segment_loop data state_select state_names 0 [] with
      | Some state_data => Ok state_data
      | None => Raised IndexError
      end
  end.

Section Reconciler.

(** [linspace_int n num] stands for the array
    [np.linspace(0, n - 1, num, dtype=int)].  numpy computes it in
    floating point (the integer part of the product of [k] and the
    rounded step, for the entry [k]); the development takes it as a
    parameter, with what numpy guarantees of it.  Here: [num] entries,
    each an index of an array of length [n].  The facts on the
    reconciler add the spacing of the entries. *)
Variable linspace_int : nat -> nat -> list nat.
Hypothesis linspace_length :
  forall n num, List.length (linspace_int n num) = num.
Hypothesis linspace_range :
  forall n num i, (0 < n)%nat -> In i (linspace_int n num) -> (i < n)%nat.

(** The body of the resampling loop for one signal. *)
Definition resample (min_len : nat) (arr : list Z) : option (list Z) :=
  if (min_len <? List.length arr)%nat then
    take_indices arr (linspace_int (List.length arr) min_len)
  else Some arr.

(** The resampling loop: every entry of [data] is replaced in place. *)
Fixpoint resample_all (min_len : nat) (entries : dict (list Z))
    : option (dict (list Z)) :=
  match entries with
  | [] => Some []
  | (sig_name, arr) :: r =>
      match resample min_len arr, resample_all min_len r with
      | Some arr', Some r' => Some ((sig_name, arr') :: r')
      | _, _ => None
      end
  end.

(** Length reconciliation (the minimum and the resampling loop). *)
Definition reconcile_lengths (data : dict (list Z))
    : result (dict (list Z)) :=
  match min_len data with
  | None => Raised ValueError
  | Some n =>
      match resample_all n data with
      | Some data' => Ok data'
      | None => Raised IndexError
      end
  end.

(** What [parse_vcd_by_state] does with the extracted series. *)
Definition split_by_state (data : dict (list Z))
    : result (dict (dict (list Z))) :=
  if negb (mem "state_select" data) then Ok [("NORMAL", data)]
  else
    match reconcile_lengths data with
    | Ok data' => segment_states data'
    | Raised e => Raised e
    | LeftIntegers => LeftIntegers
    end.

Definition parse_vcd_by_state (vcd_file : list string)
    (signals : list string) : result (dict (dict (list Z))) :=
  let signals_with_state := signals ++ ["state_select"] in
  match parse_vcd_lightweight vcd_file signals_with_state 50000 with
  | Ok data => split_by_state data
  | Raised e => Raised e
  | LeftIntegers => LeftIntegers
  end.

End Reconciler.

(** Evenly spaced indices in exact arithmetic: the integer part of
    [k * (n - 1) / (num - 1)] for the entry [k].  It meets every
    assumption made of [linspace_int], and is used to show that they
    can be met.  It is not numpy's array: where the exact position
    [k * (n - 1) / (num - 1)] is an integer, the floating-point product
    may fall just below it, and numpy's entry is then one less (for
    [n = 31] and [num = 23], the entry 11 is 14 and not 15). *)
Definition linspace_exact (n num : nat) : list nat :=
  match num with
  | O => []
  | S O => [O]
  | _ => map (fun i => (i * (n - 1) / (num - 1))%nat) (seq 0 num)
  end.

(** ** Declarations, to state what the header resolver records *)

(** The text before the first opening bracket: a name without its
    range. *)
Fixpoint before_bracket (s : string) : string :=
  match s with
  | EmptyString => EmptyString
  | String c r =>
      if Ascii.eqb c "[" then EmptyString else String c (before_bracket r)
  end.

(** A declaration, in the words of the format: the line starts with
    [$var] and has five tokens or more; the second one is the kind, one
    of wire, reg and integer; the third one is the width, an integer;
    the fourth one is the identifier; the fifth one is the name, which
    may carry a range in brackets; the name without its range is a
    wanted name.  The declaration is then the identifier, the name
    without its range and the width.  [header_line_declaration] shows
    that this is what the loop body records. *)
Definition declaration (signals_of_interest : list string) (line : string)
    : option (string * string * Z) :=
  if startswith "$var" line then
    match split_ws line with
    | _ :: kind :: width_text :: var_id :: var_name :: _ =>
        if in_set kind ["wire"; "reg"; "integer"] then
          match py_int 10 width_text with
          | Some width =>
              let base_name := before_bracket var_name in
              if in_set base_name signals_of_interest
              then Some (var_id, base_name, width)
              else None
          | None => None
          end
        else None
    | _ => None
    end
  else None.

(** The lines before the first one that contains [$enddefinitions]. *)
Fixpoint header_section (lines : list string) : list string :=
  match lines with
  | [] => []
  | line :: rest =>
      if contains "$enddefinitions" line then []
      else line :: header_section rest
  end.

(** The declarations of the header section, in the order of the file. *)
Definition declarations (signals_of_interest : list string)
    (lines : list string) : list (string * string * Z) :=
  flat_map (fun line =>
              match declaration signals_of_interest line with
              | Some d => [d]
              | None => []
              end)
    (header_section lines).

Definition decl_id (d : string * string * Z) : string := fst (fst d).
Definition decl_name (d : string * string * Z) : string := snd (fst d).
Definition decl_width (d : string * string * Z) : Z := snd d.

(** Recording a declaration in the two tables. *)
Definition record_declaration (tb : header_tables)
    (d : string * string * Z) : header_tables :=
  {| signal_ids := set (decl_id d) (decl_name d) (signal_ids tb);
     signal_widths := set (decl_id d) (decl_width d) (signal_widths tb) |}.

(** The last declaration that carries the identifier [var_id]. *)
Definition last_declaration (var_id : string)
    (decls : list (string * string * Z)) : option (string * string * Z) :=
  find (fun d => String.eqb (decl_id d) var_id) (rev decls).

(** ** Tokens, to state what a declaration line is *)

(** No character of [s] is white space. *)
Fixpoint no_space (s : string) : bool :=
  match s with
  | EmptyString => true
  | String c r => negb (is_space c) && no_space r
  end.

(** A token: not empty, no white space. *)
Definition is_token (s : string) : bool :=
  negb (String.eqb s "") && no_space s.

(** No character of [s] is an opening bracket. *)
Fixpoint no_bracket (s : string) : bool :=
  match s with
  | EmptyString => true
  | String c r => negb (Ascii.eqb c "[") && no_bracket r
  end.

(** The tokens, one space between two of them. *)
Fixpoint join_spaces (tokens : list string) : string :=
  match tokens with
  | [] => EmptyString
  | t :: r =>
      match r with
      | [] => t
      | _ => (t ++ String " " (join_spaces r))%string
      end
  end.

(** ** Binary literals, to state what the decoder reads *)

(** Every character is the digit 0 or the digit 1. *)
Fixpoint all_binary (s : string) : bool :=
  match s with
  | EmptyString => true
  | String c r => (Ascii.eqb c "0" || Ascii.eqb c "1") && all_binary r
  end.

(** The number the binary digits of [s] write, after the digits that
    gave [acc]. *)
Fixpoint binary_value (acc : Z) (s : string) : Z :=
  match s with
  | EmptyString => acc
  | String c r => binary_value (2 * acc + (if Ascii.eqb c "1" then 1 else 0)) r
  end.

(** [n] digits 0. *)
Fixpoint zeros (n : nat) : string :=
  match n with
  | O => EmptyString
  | S n' => String "0" (zeros n')
  end.

(** ** States, to state what an event stores *)

(** The state [st] with [lv] for its last-known-value table. *)
Definition with_last_values (st : decoder_state) (lv : dict Z)
    : decoder_state :=
  {| current_time := current_time st; sample_count := sample_count st;
     last_values := lv; signal_data := signal_data st |}.

(** Every sequence holds at most one sample per ten markers counted. *)
Definition within_count (st : decoder_state) : Prop :=
  forall name l,
    get name (signal_data st) = Some l ->
    10 * Z.of_nat (List.length l) <= sample_count st.

(** ** Markers and snapshots, to state what the sampler records *)

(** The line is taken for a timestamp marker. *)
Definition is_marker (raw : string) : bool := startswith "#" (strip raw).

(** The number of marker lines. *)
Definition count_markers (lines : list string) : Z :=
  Z.of_nat (List.length (filter is_marker lines)).

(** The lines from the first one that contains [$enddefinitions] on:
    the body of the trace, after its header section. *)
Fixpoint body_section (lines : list string) : list string :=
  match lines with
  | [] => []
  | line :: rest =>
      if contains "$enddefinitions" line then lines
      else body_section rest
  end.

(** Every marker line has an integer after its [#]. *)
Definition timestamps_ok (lines : list string) : bool :=
  forallb (fun raw =>
             negb (is_marker raw)
             || match py_int 10 (tail (strip raw)) with
                | Some _ => true
                | None => false
                end)
    lines.

(** No recorded width is negative. *)
Definition widths_ok (tb : header_tables) : bool :=
  forallb (fun kv => 0 <=? snd kv) (signal_widths tb).

(** The sequence of [name] holds at least one sample. *)
Definition has_samples (name : string) (data : dict (list Z)) : Prop :=
  exists l, get name data = Some l /\ l <> [].

(** Some snapshot records a value for [name]: the loop, started in
    [st0], reaches line [k] in a state [st]; the line is a marker and
    the count of markers it brings is a multiple of 10; an identifier of
    [name] has a last-known value in [st]. *)
Definition snapshot_records (tb : header_tables) (max_samples : Z)
    (st0 : decoder_state) (lines : list string) (name : string) : Prop :=
  exists (k : nat) (line : string) (st : decoder_state) (var_id : string),
    nth_error lines k = Some line
    /\ decode_lines tb max_samples (firstn k lines) st0 = Continue st
    /\ is_marker line = true
    /\ (sample_count st + 1) mod 10 = 0
    /\ get var_id (signal_ids tb) = Some name
    /\ mem var_id (last_values st) = true.

(** ** Row sets, to state what the reconciler and the segmenter select *)

(** The rows a boolean mask selects ([np.flatnonzero]), counted from
    [start]. *)
Fixpoint mask_rows (start : nat) (mask : list bool) : list nat :=
  match mask with
  | [] => []
  | m :: r =>
      if m then start :: mask_rows (S start) r else mask_rows (S start) r
  end.

(** The rows whose partition-key value is [state_idx]. *)
Definition rows_of (key : list Z) (state_idx : Z) : list nat :=
  mask_rows 0 (eq_mask key state_idx).

(** The values of an array at a list of rows. *)
Definition at_rows (arr : list Z) (rows : list nat) : list Z :=
  map (fun i => nth i arr 0) rows.

(** What the resampling loop makes of one sequence, for a given
    [linspace]. *)
Definition resampled_with (linspace_int : nat -> nat -> list nat)
    (n : nat) (arr : list Z) : list Z :=
  if (n <? List.length arr)%nat
  then at_rows arr (linspace_int (List.length arr) n)
  else arr.

(** The segment of label [state_idx]: every signal but [state_select],
    at the rows of that label. *)
Definition segment_of (data : dict (list Z)) (key : list Z)
    (state_idx : Z) : dict (list Z) :=
  map (fun kv => (fst kv, at_rows (snd kv) (rows_of key state_idx)))
    (filter (fun kv => negb (String.eqb (fst kv) "state_select")) data).

(** The label [state_idx] occurs in the partition key. *)
Definition occurs (key : list Z) (state_idx : Z) : bool :=
  any (eq_mask key state_idx).

(** ** analyze_state_metrics: the count of patterns *)

(** [np.clip(arr, lo, hi)] *)
Definition np_clip (lo hi : Z) (arr : list Z) : list Z :=
  map (fun v => Z.min (Z.max v lo) hi) arr.

(** The value of [metrics['unique_patterns']]: the number of distinct
    values ([len(np.unique(_))]) of the pattern signal clipped to
    0..63; the signal is [oscillator_derived_pattern] when the state
    has it, else [phase_pattern], and the count is 0 without both. *)
Definition unique_patterns (state_data : dict (list Z)) : nat :=
  match get "oscillator_derived_pattern" state_data with
  | Some patterns => List.length (nodup Z.eq_dec (np_clip 0 63 patterns))
  | None =>
      match get "phase_pattern" state_data with
      | Some patterns => List.length (nodup Z.eq_dec (np_clip 0 63 patterns))
      | None => O
      end
  end.

(** ** Traces used in the examples *)

(** The trace of the end-to-end scenario: two 4-bit registers, two
    vector events, two timestamp markers. *)
Definition scenario_trace (name_a name_b : string) : list string :=
  [("$var reg 4 ! " ++ name_a ++ " [3:0] $end")%string;
   ("$var reg 4 % " ++ name_b ++ " [3:0] $end")%string;
   "$enddefinitions $end";
   "#0"; "b1010 !"; "b1010 %"; "#10"].

(** The same events followed by eight more markers: ten in all. *)
Definition ten_marker_trace (name_a name_b : string) : list string :=
  scenario_trace name_a name_b
  ++ ["#20"; "#30"; "#40"; "#50"; "#60"; "#70"; "#80"; "#90"].

(** A literal of five digits sent to 4-bit signals. *)
Definition wide_literal_tables : header_tables :=
  header_pass ["state_select"; "theta_x"]
    ["$var reg 4 ! state_select [3:0] $end";
     "$var reg 4 % theta_x [3:0] $end";
     "$enddefinitions $end"] empty_tables.

(** Two scopes that declare a signal of the same name under two
    identifiers. *)
Definition two_scope_header : list string :=
  ["$scope module sensory $end";
   "$var wire 4 ! theta_x [3:0] $end";
   "$upscope $end";
   "$scope module motor $end";
   "$var wire 8 % theta_x [7:0] $end";
   "$upscope $end";
   "$enddefinitions $end"].

Definition two_scope_trace : list string :=
  two_scope_header
  ++ ["b0001 !"; "b00000010 %";
      "#0"; "#10"; "#20"; "#30"; "#40"; "#50"; "#60"; "#70"; "#80"; "#90"].

(** A body whose second timestamp marker is not followed by an
    integer. *)
Definition bad_marker_trace : list string :=
  ["$var reg 4 ! theta_x [3:0] $end";
   "$enddefinitions $end";
   "#0"; "b1010 !"; "#abc"; "#20"].

(** A trace whose ten timestamp markers, and the event before them,
    come before the line of [$enddefinitions]: its body has no marker
    at all. *)
Definition early_marker_trace : list string :=
  ["$var wire 1 ! theta_x $end";
   "1!";
   "#0"; "#1"; "#2"; "#3"; "#4"; "#5"; "#6"; "#7"; "#8"; "#9";
   "$enddefinitions $end"].

(** A state whose only pattern signal is [phase_pattern], with values
    outside of 0..63. *)
Definition phase_pattern_state : dict (list Z) :=
  [("phase_pattern", [70; 63; -2; 0; 5])].

Definition empty_state : decoder_state :=
  {| current_time := 0; sample_count := 0; last_values := [];
     signal_data := [] |}.

(** * Properties *)

(** ** Dictionaries *)

Module PyDictFacts.

Section Facts.
Context {V : Type}.
Implicit Types (d : dict V) (k : string) (v : V).

Lemma get_set_same d k v : get k (set k v d) = Some v.
Proof.
  induction d as [|[k' v'] r IH]; simpl.
  - now rewrite String.eqb_refl.
  - destruct (String.eqb k' k) eqn:E; simpl.
    + now rewrite String.eqb_refl.
    + now rewrite E.
Qed.

Lemma get_set_other d k k' v : k <> k' -> get k' (set k v d) = get k' d.
Proof.
  intros Hne; induction d as [|[k0 v0] r IH]; simpl.
  - destruct (String.eqb k k') eqn:E; [|reflexivity].
    apply String.eqb_eq in E; contradiction.
  - destruct (String.eqb k0 k) eqn:E; simpl.
    + apply String.eqb_eq in E; subst k0.
      destruct (String.eqb k k') eqn:E'; [|reflexivity].
      apply String.eqb_eq in E'; contradiction.
    + now rewrite IH.
Qed.

Lemma get_set d k k' v :
  get k' (set k v d) = if String.eqb k k' then Some v else get k' d.
Proof.
  destruct (String.eqb k k') eqn:E.
  - apply String.eqb_eq in E; subst; apply get_set_same.
  - apply String.eqb_neq in E; now apply get_set_other.
Qed.

Lemma get_In d k v : get k d = Some v -> In (k, v) d.
Proof.
  induction d as [|[k' v'] r IH]; simpl; [discriminate|].
  destruct (String.eqb k' k) eqn:E.
  - apply String.eqb_eq in E; intros [= ->]; subst; now left.
  - intros H; right; auto.
Qed.

Lemma get_None_keys d k : get k d = None <-> ~ In k (keys d).
Proof.
  induction d as [|[k' v'] r IH]; simpl.
  - tauto.
  - destruct (String.eqb k' k) eqn:E.
    + apply String.eqb_eq in E; subst; split; [discriminate|].
      intros H; exfalso; apply H; now left.
    + apply String.eqb_neq in E; rewrite IH; tauto.
Qed.

Lemma mem_keys d k : mem k d = true <-> In k (keys d).
Proof.
  unfold mem; destruct (get k d) eqn:E.
  - split; [intros _|reflexivity].
    apply get_In in E; unfold keys.
    change k with (fst (k, v)); now apply in_map.
  - apply get_None_keys in E; split; [discriminate|contradiction].
Qed.

Lemma keys_set_present d k v : In k (keys d) -> keys (set k v d) = keys d.
Proof.
  induction d as [|[k' v'] r IH]; simpl; [tauto|].
  intros H; destruct (String.eqb k' k) eqn:E; simpl.
  - apply String.eqb_eq in E; now subst.
  - apply String.eqb_neq in E; f_equal; apply IH; tauto.
Qed.

Lemma keys_set_absent d k v :
  ~ In k (keys d) -> keys (set k v d) = keys d ++ [k].
Proof.
  induction d as [|[k' v'] r IH]; simpl; [reflexivity|].
  intros H; destruct (String.eqb k' k) eqn:E; simpl.
  - apply String.eqb_eq in E; subst; tauto.
  - f_equal; apply IH; tauto.
Qed.

End Facts.

End PyDictFacts.

Import PyDictFacts.

(** ** The event decoder, one line at a time *)

Lemma startswith_b_not_marker (s : string) :
  startswith "b" s = true -> startswith "#" s = false.
Proof.
  destruct s as [|c r]; cbn [startswith]; [discriminate|].
  destruct (Ascii.eqb_spec "b" c) as [<-|]; [reflexivity|discriminate].
Qed.

Lemma twos_complement_unsigned (val bits : Z) :
  twos_complement val bits false = Some val.
Proof. reflexivity. Qed.

Lemma twos_complement_signed_range (val bits : Z) :
  1 <= bits -> 0 <= val < 2 ^ bits ->
  exists x, twos_complement val bits true = Some x
            /\ - 2 ^ (bits - 1) <= x <= 2 ^ (bits - 1) - 1.
Proof.
  intros Hb Hv.
  assert (Hp : 2 ^ bits = 2 * 2 ^ (bits - 1)).
  { replace bits with (Z.succ (bits - 1)) at 1 by lia.
    apply Z.pow_succ_r; lia. }
  unfold twos_complement; simpl.
  destruct (bits <? 0) eqn:E1; [apply Z.ltb_lt in E1; lia|].
  destruct (bits =? 0) eqn:E2; [apply Z.eqb_eq in E2; lia|].
  destruct (2 ^ (bits - 1) <=? val) eqn:E3.
  - apply Z.leb_le in E3; eexists; split; [reflexivity|lia].
  - apply Z.leb_gt in E3; eexists; split; [reflexivity|lia].
Qed.

(** C1, as amended.  A vector event [b<literal> <id>] on a tracked
    identifier of declared width [w >= 1], whose literal [int(_, 2)]
    reads as a value [v] with [0 <= v < 2^w] (every literal of at most
    [w] binary digits does), stores a value in the last-known-value
    table: in [0, 2^w) when the signal name is in the unsigned set, in
    [-2^(w-1), 2^(w-1) - 1] otherwise. *)
Theorem multibit_value_in_range (tb : header_tables) (max_samples : Z)
    (raw tok var_id sig_name : string) (st : decoder_state) (w v : Z) :
  startswith "b" (strip raw) = true ->
  split_ws (strip raw) = [tok; var_id] ->
  get var_id (signal_ids tb) = Some sig_name ->
  get var_id (signal_widths tb) = Some w ->
  py_int 2 (tail tok) = Some v ->
  1 <= w ->
  0 <= v < 2 ^ w ->
  exists x,
    decode_line tb max_samples raw st
    = Continue (with_last_values st (set var_id x (last_values st)))
    /\ get var_id (set var_id x (last_values st)) = Some x
    /\ (in_set sig_name UNSIGNED_SIGNALS = true -> 0 <= x < 2 ^ w)
    /\ (in_set sig_name UNSIGNED_SIGNALS = false ->
        - 2 ^ (w - 1) <= x <= 2 ^ (w - 1) - 1).
Proof.
  intros Hb Hparts Hid Hw Hint Hw1 Hv.
  unfold decode_line.
  rewrite (startswith_b_not_marker _ Hb), Hb, Hparts.
  cbn [List.length Nat.eqb nth]. rewrite Hid, Hint, Hw.
  destruct (in_set sig_name UNSIGNED_SIGNALS) eqn:Hu; cbn [negb].
  - rewrite twos_complement_unsigned.
    exists v; repeat split; try lia; try discriminate.
    apply get_set_same.
  - destruct (twos_complement_signed_range Hw1 Hv) as [x [Hx Hr]].
    rewrite Hx. exists x; repeat split; try lia; try discriminate.
    apply get_set_same.
Qed.

Lemma multibit_value_in_range_witness :
  exists x,
    decode_line wide_literal_tables 100000 "b1010 %" empty_state
    = Continue (with_last_values empty_state (set "%" x []))
    /\ get "%" (set "%" x []) = Some x
    /\ (in_set "theta_x" UNSIGNED_SIGNALS = true -> 0 <= x < 2 ^ 4)
    /\ (in_set "theta_x" UNSIGNED_SIGNALS = false ->
        - 2 ^ (4 - 1) <= x <= 2 ^ (4 - 1) - 1).
Proof.
  apply (@multibit_value_in_range wide_literal_tables 100000
           "b1010 %" "b1010" "%" "theta_x" empty_state 4 10);
    try reflexivity; lia.
Defined.

(** C1, as stated, fails: the literal [11111] has five digits, the
    signals are 4 bits wide.  The unsigned signal stores 31, which is
    not below 2^4; the signed one stores 31 - 16 = 15, which is above
    2^3 - 1. *)
Lemma multibit_wide_literal_out_of_range :
  get "!" (signal_ids wide_literal_tables) = Some "state_select"
  /\ get "!" (signal_widths wide_literal_tables) = Some 4
  /\ get "%" (signal_ids wide_literal_tables) = Some "theta_x"
  /\ get "%" (signal_widths wide_literal_tables) = Some 4
  /\ py_int 2 "11111" = Some 31
  /\ decode_line wide_literal_tables 100000 "b11111 !" empty_state
     = Continue (with_last_values empty_state [("!", 31)])
  /\ ~ (31 < 2 ^ 4)
  /\ decode_line wide_literal_tables 100000 "b11111 %" empty_state
     = Continue (with_last_values empty_state [("%", 15)])
  /\ ~ (15 <= 2 ^ (4 - 1) - 1).
Proof.
  repeat split; try reflexivity; simpl; lia.
Qed.

(** C2.  A single-bit event on a tracked identifier: with the status
    character x, X, z or Z the whole decoder state, and so the
    last-known-value table, is what it was before the event; with 1 or
    0 the entry of the identifier is set to 1 or 0. *)
Theorem single_bit_event (tb : header_tables) (max_samples : Z)
    (raw : string) (val_char : ascii) (var_id : string)
    (st : decoder_state) :
  strip raw = String val_char var_id ->
  var_id <> "" ->
  mem var_id (signal_ids tb) = true ->
  (In val_char ["x"; "X"; "z"; "Z"]%char ->
   decode_line tb max_samples raw st = Continue st)
  /\ (val_char = "1"%char ->
      decode_line tb max_samples raw st
      = Continue (with_last_values st (set var_id 1 (last_values st))))
  /\ (val_char = "0"%char ->
      decode_line tb max_samples raw st
      = Continue (with_last_values st (set var_id 0 (last_values st)))).
Proof.
  intros Hline Hne Hmem.
  destruct var_id as [|c r]; [congruence|].
  unfold decode_line; rewrite Hline.
  repeat split.
  - intros Hin; simpl in Hin.
    destruct Hin as [<-|[<-|[<-|[<-|[]]]]]; simpl; now rewrite Hmem.
  - intros ->; simpl; now rewrite Hmem.
  - intros ->; simpl; now rewrite Hmem.
Qed.

Lemma single_bit_event_witness :
  (In "x"%char ["x"; "X"; "z"; "Z"]%char ->
   decode_line wide_literal_tables 100000 "x%" empty_state
   = Continue empty_state)
  /\ ("x"%char = "1"%char ->
      decode_line wide_literal_tables 100000 "x%" empty_state
      = Continue (with_last_values empty_state (set "%" 1 [])))
  /\ ("x"%char = "0"%char ->
      decode_line wide_literal_tables 100000 "x%" empty_state
      = Continue (with_last_values empty_state (set "%" 0 []))).
Proof.
  apply (@single_bit_event wide_literal_tables 100000 "x%" "x" "%"
           empty_state); [reflexivity|discriminate|reflexivity].
Defined.

(** ** End-to-end runs *)

(** C7, as stated, fails on the code: the decimation is the constant 10
    and the unsigned set is fixed, so the trace of the scenario, with
    its two timestamp markers, triggers no sample and the result is the
    empty mapping. *)
Lemma scenario_two_markers_no_sample :
  parse_vcd_lightweight (scenario_trace "a" "b") ["a"; "b"] 100000 = Ok []
  /\ ~ (exists res,
         parse_vcd_lightweight (scenario_trace "a" "b") ["a"; "b"] 100000
         = Ok res
         /\ get "a" res = Some [10] /\ get "b" res = Some [-6]).
Proof.
  split; [reflexivity|].
  intros [res [H [Ha _]]].
  vm_compute in H. injection H as <-. discriminate.
Qed.

(** C7, as amended.  The first register is named [state_select], a
    member of the fixed unsigned set, the second [b]; both are 4 bits
    wide and receive [b1010]; the body has ten timestamp markers.  The
    tenth marker triggers the one sample: state_select = 10, b = -6. *)
Theorem scenario_ten_markers_sample :
  parse_vcd_lightweight (ten_marker_trace "state_select" "b")
    ["state_select"; "b"] 100000
  = Ok [("state_select", [10]); ("b", [-6])].
Proof. reflexivity. Qed.

(** C8 fails on the code: the timestamp marker [#abc] is readable text,
    and [int(line[1:])] raises [ValueError] outside of any [try]. *)
Theorem bad_marker_raises :
  parse_vcd_lightweight bad_marker_trace ["theta_x"] 100000
  = Raised ValueError.
Proof. reflexivity. Qed.

(** C6 fails on the code: with [max_samples = 1] the one snapshot
    appends the values of both identifiers of [theta_x], and the
    sequence has length 2. *)
Theorem two_scope_sequence_exceeds_budget :
  header_pass ["theta_x"] two_scope_trace empty_tables
  = {| signal_ids := [("!", "theta_x"); ("%", "theta_x")];
       signal_widths := [("!", 4); ("%", 8)] |}
  /\ parse_vcd_lightweight two_scope_trace ["theta_x"] 1
     = Ok [("theta_x", [1; 2])]
  /\ (1 < List.length [1; 2])%nat.
Proof. repeat split; simpl; lia. Qed.

(** ** The fallback of the segmenter *)

(** C9.  When the extracted series has no entry for [state_select],
    [parse_vcd_by_state] returns one segment, labelled NORMAL, that
    holds the extracted data as they are; it does not raise. *)
Theorem no_state_select_single_segment
    (linspace_int : nat -> nat -> list nat)
    (vcd_file signals : list string) (data : dict (list Z)) :
  parse_vcd_lightweight vcd_file (signals ++ ["state_select"]) 50000
  = Ok data ->
  get "state_select" data = None ->
  parse_vcd_by_state linspace_int vcd_file signals = Ok [("NORMAL", data)].
Proof.
  intros Hparse Hget.
  unfold parse_vcd_by_state; rewrite Hparse.
  unfold split_by_state, mem; now rewrite Hget.
Qed.

Lemma no_state_select_single_segment_witness :
  parse_vcd_by_state linspace_exact (ten_marker_trace "a" "b") ["a"; "b"]
  = Ok [("NORMAL", [("a", [-6]); ("b", [-6])])].
Proof.
  apply (@no_state_select_single_segment linspace_exact
           (ten_marker_trace "a" "b") ["a"; "b"]
           [("a", [-6]); ("b", [-6])]); reflexivity.
Defined.

(** ** The length reconciler *)

Lemma take_indices_at_rows (arr : list Z) (indices : list nat) :
  (forall i, In i indices -> (i < List.length arr)%nat) ->
  take_indices arr indices = Some (at_rows arr indices).
Proof.
  induction indices as [|i r IH]; intros Hr; simpl; [reflexivity|].
  rewrite (nth_error_nth' arr 0) by (apply Hr; now left).
  rewrite IH by (intros j Hj; apply Hr; now right).
  reflexivity.
Qed.

Lemma fold_min_le (l : list (list Z)) (m : nat) :
  let r := fold_left (fun m arr => Nat.min m (List.length arr)) l m in
  (r <= m)%nat
  /\ (forall arr, In arr l -> (r <= List.length arr)%nat)
  /\ (r = m \/ exists arr, In arr l /\ List.length arr = r).
Proof.
  revert m; induction l as [|a l IH]; intros m; simpl.
  - repeat split; [lia|tauto|now left].
  - specialize (IH (Nat.min m (List.length a))); simpl in IH.
    destruct IH as [H1 [H2 H3]].
    repeat split.
    + lia.
    + intros arr [<-|Hin]; [lia|auto].
    + destruct H3 as [H3|[arr [Hin Hlen]]].
      * destruct (Nat.min_spec m (List.length a)) as [[_ E]|[_ E]];
          rewrite E in *; [now left|].
        right; exists a; split; [now left|now symmetry].
      * right; exists arr; split; [now right|assumption].
Qed.

Lemma min_len_spec (data : dict (list Z)) :
  data <> [] ->
  exists n,
    min_len data = Some n
    /\ (forall sig arr, In (sig, arr) data -> (n <= List.length arr)%nat)
    /\ (exists sig arr, In (sig, arr) data /\ List.length arr = n).
Proof.
  destruct data as [|[k a] r]; [congruence|intros _].
  unfold min_len; simpl.
  destruct (fold_min_le (values r) (List.length a)) as [H1 [H2 H3]].
  eexists; split; [reflexivity|split].
  - intros sig arr [[= <- <-]|Hin]; [exact H1|].
    apply H2; unfold values; change arr with (snd (sig, arr)).
    now apply in_map.
  - destruct H3 as [H3|[arr [Hin Hlen]]].
    + exists k, a; split; [now left|now symmetry].
    + unfold values in Hin; apply in_map_iff in Hin.
      destruct Hin as [[k' a'] [E Hin]]; simpl in E; subst a'.
      exists k', arr; split; [now right|assumption].
Qed.

Section ReconcilerFacts.

Variable linspace_int : nat -> nat -> list nat.
Hypothesis linspace_length :
  forall n num, List.length (linspace_int n num) = num.
Hypothesis linspace_range :
  forall n num i, (0 < n)%nat -> In i (linspace_int n num) -> (i < n)%nat.

Lemma resample_closed (n : nat) (arr : list Z) :
  resample linspace_int n arr = Some (resampled_with linspace_int n arr).
Proof.
  unfold resample, resampled_with.
  destruct (n <? List.length arr)%nat eqn:E; [|reflexivity].
  apply Nat.ltb_lt in E.
  apply take_indices_at_rows; intros i Hi.
  eapply linspace_range; [|exact Hi]; lia.
Qed.

Lemma resample_all_closed (n : nat) (data : dict (list Z)) :
  resample_all linspace_int n data
  = Some (map (fun kv => (fst kv, resampled_with linspace_int n (snd kv)))
            data).
Proof.
  induction data as [|[k arr] r IH]; simpl; [reflexivity|].
  now rewrite resample_closed, IH.
Qed.

Lemma resampled_length (n : nat) (arr : list Z) :
  (n <= List.length arr)%nat ->
  List.length (resampled_with linspace_int n arr) = n.
Proof.
  intros Hle; unfold resampled_with.
  destruct (n <? List.length arr)%nat eqn:E.
  - unfold at_rows; now rewrite length_map, linspace_length.
  - apply Nat.ltb_ge in E; lia.
Qed.

(** The spacing of [np.linspace(0, n - 1, num, dtype=int)].  The first
    entry is 0 and, of two entries or more, the last one is [n - 1].
    The entry [k] is the integer part of the floating-point product of
    [k] and the rounded step [(n - 1) / (num - 1)]: as long as the
    sizes stay far below 2^53, it is the integer part [i] of the exact
    position [k * (n - 1) / (num - 1)], or one less when that position
    is an integer; in both cases [i <= k * (n - 1) / (num - 1) <= i + 1]. *)
Hypothesis linspace_first :
  forall n num,
    (0 < n)%nat -> (0 < num)%nat ->
    nth_error (linspace_int n num) 0 = Some 0%nat.
Hypothesis linspace_last :
  forall n num,
    (0 < n)%nat -> (2 <= num)%nat ->
    nth_error (linspace_int n num) (num - 1) = Some (n - 1)%nat.
Hypothesis linspace_spacing :
  forall n num k i,
    (0 < n)%nat ->
    Z.of_nat n * Z.of_nat num < 2 ^ 50 ->
    nth_error (linspace_int n num) k = Some i ->
    ((num - 1) * i <= k * (n - 1)
     /\ k * (n - 1) <= (num - 1) * (i + 1))%nat.



End ReconcilerFacts.

Lemma linspace_exact_length (n num : nat) :
  List.length (linspace_exact n num) = num.
Proof.
  destruct num as [|[|num]]; [reflexivity..|].
  unfold linspace_exact; now rewrite length_map, length_seq.
Qed.

Lemma linspace_exact_range (n num i : nat) :
  (0 < n)%nat -> In i (linspace_exact n num) -> (i < n)%nat.
Proof.
  intros Hn; destruct num as [|[|num]]; simpl.
  - tauto.
  - intros [<-|[]]; exact Hn.
  - intros Hin.
    change (In i (map (fun j => (j * (n - 1) / (S (S num) - 1))%nat)
                  (seq 0 (S (S num))))) in Hin.
    apply in_map_iff in Hin; destruct Hin as [j [<- Hj]].
    apply in_seq in Hj.
    apply Nat.le_lt_trans with (m := (n - 1)%nat); [|lia].
    apply Nat.Div0.div_le_upper_bound; nia.
Qed.






(** ** The state segmenter *)

Lemma mask_rows_In (mask : list bool) (start i : nat) :
  In i (mask_rows start mask)
  <-> (start <= i)%nat /\ nth_error mask (i - start) = Some true.
Proof.
  revert start; induction mask as [|m r IH]; intros start; simpl.
  - split; [tauto|]. intros [_ H]; destruct (i - start)%nat; discriminate.
  - assert (Hstep : forall b, (S start <= i)%nat ->
              nth_error (b :: r) (i - start) = nth_error r (i - S start)).
    { intros b Hle; replace (i - start)%nat with (S (i - S start)) by lia.
      reflexivity. }
    destruct m; simpl; rewrite IH; split.
    + intros [<-|[Hle H]].
      * split; [lia|]. now rewrite Nat.sub_diag.
      * split; [lia|]. now rewrite Hstep.
    + intros [Hle H].
      destruct (Nat.eq_dec start i) as [->|Hne]; [now left|right].
      split; [lia|]. rewrite <- (Hstep true); [exact H|lia].
    + intros [Hle H]; split; [lia|]. now rewrite Hstep.
    + intros [Hle H].
      destruct (Nat.eq_dec start i) as [->|Hne].
      * rewrite Nat.sub_diag in H; discriminate.
      * split; [lia|]. rewrite <- (Hstep false); [exact H|lia].
Qed.

Lemma mask_rows_NoDup (mask : list bool) (start : nat) :
  NoDup (mask_rows start mask).
Proof.
  revert start; induction mask as [|m r IH]; intros start; simpl.
  - constructor.
  - destruct m; [|apply IH].
    constructor; [|apply IH].
    intros Hin; apply mask_rows_In in Hin; lia.
Qed.

Lemma rows_of_In (key : list Z) (state_idx : Z) (i : nat) :
  In i (rows_of key state_idx) <-> nth_error key i = Some state_idx.
Proof.
  unfold rows_of, eq_mask; rewrite mask_rows_In, Nat.sub_0_r, nth_error_map.
  destruct (nth_error key i) as [v|]; simpl.
  - destruct (Z.eqb_spec v state_idx) as [->|Hne].
    + split; [reflexivity|]. intros _; split; [lia|reflexivity].
    + split; [intros [_ H]; discriminate|]. intros [= H]; contradiction.
  - split; [intros [_ H]; discriminate|discriminate].
Qed.

Lemma occurs_In (key : list Z) (state_idx : Z) :
  occurs key state_idx = true <-> In state_idx key.
Proof.
  unfold occurs, any, eq_mask; rewrite existsb_exists; split.
  - intros [b [Hin Hb]]; subst b; apply in_map_iff in Hin.
    destruct Hin as [v [E Hin]]; apply Z.eqb_eq in E; now subst.
  - intros Hin; exists true; split; [|reflexivity].
    apply in_map_iff; exists state_idx; split; [apply Z.eqb_refl|exact Hin].
Qed.

Lemma bool_index_from (vals : list Z) (mask : list bool) (start : nat) :
  List.length vals = List.length mask ->
  bool_index vals mask
  = Some (map (fun i => nth (i - start) vals 0) (mask_rows start mask)).
Proof.
  revert mask start; induction vals as [|v vs IH];
    intros [|m ms] start Hlen; simpl in *; try discriminate; [reflexivity|].
  injection Hlen as Hlen.
  rewrite (IH ms (S start) Hlen).
  assert (E : map (fun i => nth (i - S start) vs 0) (mask_rows (S start) ms)
              = map (fun i => nth (i - start) (v :: vs) 0)
                  (mask_rows (S start) ms)).
  { apply map_ext_in; intros i Hi; apply mask_rows_In in Hi.
    replace (i - start)%nat with (S (i - S start)) by lia; reflexivity. }
  destruct m; simpl; rewrite E; [|reflexivity].
  now rewrite Nat.sub_diag.
Qed.

Lemma bool_index_at_rows (vals : list Z) (mask : list bool) :
  List.length vals = List.length mask ->
  bool_index vals mask = Some (at_rows vals (mask_rows 0 mask)).
Proof.
  intros Hlen; rewrite (bool_index_from vals mask 0 Hlen).
  unfold at_rows; f_equal; apply map_ext; intros i.
  now rewrite Nat.sub_0_r.
Qed.

Lemma select_rows_segment (data : dict (list Z)) (key : list Z)
    (state_idx : Z) :
  (forall sig arr, In (sig, arr) data -> List.length arr = List.length key) ->
  select_rows data (eq_mask key state_idx)
  = Some (segment_of data key state_idx).
Proof.
  unfold segment_of; induction data as [|[k arr] r IH]; intros Hal; simpl;
    [reflexivity|].
  rewrite IH by (intros sig a Hin; apply (Hal sig); now right).
  destruct (String.eqb k "state_select"); simpl; [reflexivity|].
  rewrite bool_index_at_rows; [reflexivity|].
  unfold eq_mask; rewrite length_map; apply (Hal k); now left.
Qed.

Lemma NoDup_keys_set {V : Type} (d : dict V) (k : string) (v : V) :
  NoDup (keys d) -> NoDup (keys (set k v d)).
Proof.
  intros Hnd; destruct (in_dec string_dec k (keys d)) as [Hin|Hni].
  - now rewrite keys_set_present.
  - rewrite keys_set_absent by assumption.
    apply NoDup_app; [assumption|repeat constructor; tauto|].
    intros a Ha [<-|[]]; contradiction.
Qed.

Lemma segment_loop_get (data : dict (list Z)) (key : list Z) :
  (forall sig arr, In (sig, arr) data -> List.length arr = List.length key) ->
  forall (names : list string) (k : Z) (acc : dict (dict (list Z))),
    NoDup names ->
    exists segs,
      segment_loop data key names k acc = Some segs
      /\ (forall name, ~ In name names -> get name segs = get name acc)
      /\ (forall j name,
            nth_error names j = Some name ->
            get name segs
            = if occurs key (k + Z.of_nat j)
              then Some (segment_of data key (k + Z.of_nat j))
              else get name acc)
      /\ (NoDup (keys acc) -> NoDup (keys segs)).
Proof.
  intros Hal names; induction names as [|n r IH]; intros k acc Hnd.
  - exists acc; repeat split; auto.
    intros [|j] name H; discriminate.
  - apply NoDup_cons_iff in Hnd; destruct Hnd as [Hn Hr].
    cbn [segment_loop].
    change (any (eq_mask key k)) with (occurs key k).
    set (acc' := if occurs key k
                 then set n (segment_of data key k) acc else acc).
    assert (Hacc : forall name, name <> n -> get name acc' = get name acc).
    { intros name Hne; unfold acc'; destruct (occurs key k); [|reflexivity].
      apply get_set_other; congruence. }
    destruct (IH (k + 1) acc' Hr) as [segs [Hrun [Hout [Hin Hk]]]].
    exists segs; split; [|split; [|split]].
    + unfold acc' in Hrun; destruct (occurs key k); [|exact Hrun].
      now rewrite select_rows_segment.
    + intros name Hni; rewrite Hout by (simpl in Hni; tauto).
      apply Hacc; simpl in Hni; intros ->; tauto.
    + intros [|j] name Hnth; simpl in Hnth.
      * injection Hnth as <-. rewrite (Hout n Hn), Z.add_0_r.
        unfold acc'; destruct (occurs key k); [apply get_set_same|reflexivity].
      * rewrite (Hin j name Hnth).
        replace (k + 1 + Z.of_nat j) with (k + Z.of_nat (S j)) by lia.
        rewrite Hacc; [reflexivity|].
        intros ->; apply Hn; eapply nth_error_In; eassumption.
    + intros Hnd; apply Hk; unfold acc'.
      destruct (occurs key k); [now apply NoDup_keys_set|assumption].
Qed.

Lemma NoDup_concat_map (f : nat -> list nat) (l : list nat) :
  NoDup l ->
  (forall a, NoDup (f a)) ->
  (forall a b i, In i (f a) -> In i (f b) -> a = b) ->
  NoDup (List.concat (map f l)).
Proof.
  intros Hl Hf Hdis; induction l as [|a r IH]; simpl; [constructor|].
  apply NoDup_cons_iff in Hl; destruct Hl as [Ha Hr].
  apply NoDup_app; [apply Hf|now apply IH|].
  intros i Hi Hc; apply in_concat in Hc; destruct Hc as [x [Hx Hix]].
  apply in_map_iff in Hx; destruct Hx as [b [<- Hb]].
  now rewrite (Hdis a b i Hi Hix) in Ha.
Qed.

(** C4.  For an aligned series (every sequence as long as the partition
    key) whose key holds only the labels 0..4, the segmenter returns one
    segment per label that occurs in the key and none for the others;
    the segment of a label holds, for every other signal, the values at
    the rows whose key value equals the label (row by row, wherever
    they are); the rows of the segments, put together, are the rows
    0 .. L-1, each exactly once. *)
Theorem segments_partition_rows (data : dict (list Z)) (key : list Z) :
  get "state_select" data = Some key ->
  (forall sig arr, In (sig, arr) data -> List.length arr = List.length key) ->
  Forall (fun v => 0 <= v <= 4) key ->
  exists segs,
    segment_states data = Ok segs
    /\ NoDup (keys segs)
    /\ (forall name seg,
          get name segs = Some seg
          <-> exists idx,
                nth_error state_names idx = Some name
                /\ In (Z.of_nat idx) key
                /\ seg = segment_of data key (Z.of_nat idx))
    /\ (forall state_idx i,
          In i (rows_of key state_idx) <-> nth_error key i = Some state_idx)
    /\ Permutation
         (List.concat (map (fun idx => rows_of key (Z.of_nat idx))
                    (filter (fun idx => occurs key (Z.of_nat idx))
                       (seq 0 (List.length state_names)))))
         (seq 0 (List.length key)).
Proof.
  intros Hkey Hal Hlab.
  assert (Hnames : NoDup state_names).
  { unfold state_names; repeat constructor; simpl; intuition discriminate. }
  destruct (@segment_loop_get data key Hal state_names 0 [] Hnames)
    as [segs [Hrun [Hout [Hin Hnd]]]].
  exists segs; split; [|split; [|split; [|split]]].
  - unfold segment_states; now rewrite Hkey, Hrun.
  - apply Hnd; constructor.
  - intros name seg; split.
    + intros Hget.
      destruct (in_dec string_dec name state_names) as [Hi|Hni].
      * apply In_nth_error in Hi; destruct Hi as [idx Hidx].
        rewrite (Hin idx name Hidx) in Hget; simpl in Hget.
        destruct (occurs key (Z.of_nat idx)) eqn:E; [|discriminate].
        injection Hget as <-; exists idx; repeat split; auto.
        now apply occurs_In.
      * rewrite (Hout name Hni) in Hget; discriminate.
    + intros [idx [Hidx [Hocc ->]]].
      rewrite (Hin idx name Hidx); simpl.
      apply occurs_In in Hocc; now rewrite Hocc.
  - intros state_idx i; apply rows_of_In.
  - apply NoDup_Permutation.
    + apply NoDup_concat_map.
      * apply NoDup_filter, seq_NoDup.
      * intros a; apply mask_rows_NoDup.
      * intros a b i Ha Hb; apply rows_of_In in Ha, Hb.
        rewrite Ha in Hb; injection Hb as Hb; lia.
    + apply seq_NoDup.
    + intros i; rewrite in_concat, in_seq; split.
      * intros [x [Hx Hi]]; apply in_map_iff in Hx.
        destruct Hx as [idx [<- _]]; apply rows_of_In in Hi.
        assert (nth_error key i <> None) by congruence.
        apply nth_error_Some in H; lia.
      * intros [_ Hi]; simpl in Hi.
        destruct (nth_error key i) as [v|] eqn:E;
          [|apply nth_error_None in E; lia].
        assert (Hv : 0 <= v <= 4).
        { rewrite Forall_forall in Hlab; apply Hlab.
          eapply nth_error_In; eassumption. }
        exists (rows_of key v); split; [|now apply rows_of_In].
        apply in_map_iff; exists (Z.to_nat v).
        rewrite Z2Nat.id by lia; split; [reflexivity|].
        apply filter_In; split.
        -- apply in_seq; simpl; lia.
        -- rewrite Z2Nat.id by lia; apply occurs_In.
           eapply nth_error_In; eassumption.
Qed.

Lemma segments_partition_rows_witness :
  exists segs,
    segment_states
      [("theta_x", [10; 11; 12; 13; 14; 15]);
       ("state_select", [0; 0; 3; 3; 0; 3])] = Ok segs
    /\ NoDup (keys segs)
    /\ (forall name seg,
          get name segs = Some seg
          <-> exists idx,
                nth_error state_names idx = Some name
                /\ In (Z.of_nat idx) [0; 0; 3; 3; 0; 3]
                /\ seg = segment_of
                           [("theta_x", [10; 11; 12; 13; 14; 15]);
                            ("state_select", [0; 0; 3; 3; 0; 3])]
                           [0; 0; 3; 3; 0; 3] (Z.of_nat idx))
    /\ (forall state_idx i,
          In i (rows_of [0; 0; 3; 3; 0; 3] state_idx)
          <-> nth_error [0; 0; 3; 3; 0; 3] i = Some state_idx)
    /\ Permutation
         (List.concat
            (map (fun idx => rows_of [0; 0; 3; 3; 0; 3] (Z.of_nat idx))
               (filter
                  (fun idx => occurs [0; 0; 3; 3; 0; 3] (Z.of_nat idx))
                  (seq 0 (List.length state_names)))))
         (seq 0 (List.length [0; 0; 3; 3; 0; 3])).
Proof.
  apply (@segments_partition_rows
           [("theta_x", [10; 11; 12; 13; 14; 15]);
            ("state_select", [0; 0; 3; 3; 0; 3])] [0; 0; 3; 3; 0; 3]).
  - reflexivity.
  - intros sig arr [[= <- <-]|[[= <- <-]|[]]]; reflexivity.
  - repeat constructor; lia.
Defined.

(** ** The header resolver *)

Lemma split_ws_cons (c : ascii) (r : string) :
  split_ws (String c r)
  = if is_space c then split_ws r
    else
      match r with
      | EmptyString => [String c EmptyString]
      | String c' _ =>
          if is_space c' then String c EmptyString :: split_ws r
          else
            match split_ws r with
            | w :: ws => String c w :: ws
            | [] => [String c EmptyString]
            end
      end.
Proof. reflexivity. Qed.

Lemma split_ws_token_space (w r : string) :
  is_token w = true ->
  split_ws (w ++ String " " r) = w :: split_ws r.
Proof.
  unfold is_token; induction w as [|c w' IH]; [discriminate|].
  cbn [String.eqb negb andb no_space]; intros H.
  apply andb_prop in H; destruct H as [Hc Hw].
  apply negb_true_iff in Hc.
  cbn [append]; rewrite split_ws_cons, Hc.
  destruct w' as [|c' w''].
  - cbn [append].
    change (is_space " ") with true; cbn iota.
    now rewrite (split_ws_cons " " r).
  - cbn [append]; cbn [no_space] in Hw.
    pose proof Hw as Hw'; apply andb_prop in Hw'; destruct Hw' as [Hc' _].
    apply negb_true_iff in Hc'; rewrite Hc'.
    change (String c' (w'' ++ String " " r))
      with ((String c' w'') ++ String " " r)%string.
    now rewrite IH.
Qed.

Lemma split_ws_token (w : string) :
  is_token w = true -> split_ws w = [w].
Proof.
  unfold is_token; induction w as [|c w' IH]; [discriminate|].
  cbn [String.eqb negb andb no_space]; intros H.
  apply andb_prop in H; destruct H as [Hc Hw].
  apply negb_true_iff in Hc; rewrite split_ws_cons, Hc.
  destruct w' as [|c' w'']; [reflexivity|].
  cbn [no_space] in Hw.
  pose proof Hw as Hw'; apply andb_prop in Hw'; destruct Hw' as [Hc' _].
  apply negb_true_iff in Hc'; rewrite Hc'.
  now rewrite IH.
Qed.

Lemma split_on_base (name suffix : string) :
  no_bracket name = true ->
  suffix = EmptyString \/ startswith "[" suffix = true ->
  hd EmptyString (split_on "[" (name ++ suffix)) = name.
Proof.
  intros Hn Hs; induction name as [|c name IH].
  - cbn [append]; destruct Hs as [->|Hs]; [reflexivity|].
    destruct suffix as [|c' s']; [discriminate|].
    cbn [startswith] in Hs; apply andb_prop in Hs; destruct Hs as [Hc _].
    apply Ascii.eqb_eq in Hc; subst c'; reflexivity.
  - cbn [no_bracket] in Hn; apply andb_prop in Hn; destruct Hn as [Hc Hn].
    apply negb_true_iff in Hc.
    cbn [append split_on]; rewrite Hc.
    specialize (IH Hn).
    destruct (split_on "[" (name ++ suffix)) as [|w ws]; simpl in *;
      now subst.
Qed.

Lemma in_set_In (s : string) (l : list string) :
  in_set s l = true <-> In s l.
Proof.
  unfold in_set; rewrite existsb_exists; split.
  - intros [x [Hx E]]; apply String.eqb_eq in E; now subst.
  - intros H; exists s; split; [exact H|apply String.eqb_refl].
Qed.

Lemma split_ws_tokens (s : string) :
  Forall (fun t => is_token t = true) (split_ws s).
Proof.
  induction s as [|c r IH]; [constructor|].
  rewrite split_ws_cons.
  destruct (is_space c) eqn:Hc; [exact IH|].
  assert (H1 : is_token (String c EmptyString) = true).
  { unfold is_token; cbn [String.eqb no_space negb andb]; now rewrite Hc. }
  destruct r as [|c' r']; [now constructor|].
  destruct (is_space c') eqn:Hc'.
  - constructor; [exact H1|exact IH].
  - destruct (split_ws (String c' r')) as [|w ws]; [now constructor|].
    inversion IH as [|? ? Hw Hws]; subst.
    constructor; [|exact Hws].
    unfold is_token in *; cbn [String.eqb no_space negb andb].
    rewrite Hc; apply andb_prop in Hw; now destruct Hw as [_ ->].
Qed.

Lemma split_on_before_bracket (s : string) :
  hd EmptyString (split_on "[" s) = before_bracket s.
Proof.
  induction s as [|c r IH]; [reflexivity|].
  cbn [split_on before_bracket].
  destruct (Ascii.eqb c "["); [reflexivity|].
  rewrite <- IH; now destruct (split_on "[" r).
Qed.

Lemma before_bracket_spec (s : string) :
  exists suffix,
    s = (before_bracket s ++ suffix)%string
    /\ no_bracket (before_bracket s) = true
    /\ (suffix = EmptyString \/ startswith "[" suffix = true).
Proof.
  induction s as [|c r [suffix [H1 [H2 H3]]]].
  - exists EmptyString; repeat split; now left.
  - cbn [before_bracket].
    destruct (Ascii.eqb_spec c "[") as [->|Hne].
    + exists (String "[" r); repeat split; now right.
    + exists suffix; cbn [append no_bracket].
      apply Ascii.eqb_neq in Hne; rewrite Hne, H2.
      repeat split; [now rewrite <- H1|exact H3].
Qed.

Lemma find_in_set (name : string) (l : list string) :
  find (fun sig => String.eqb sig name) l
  = if in_set name l then Some name else None.
Proof.
  unfold in_set; induction l as [|x l IH]; [reflexivity|].
  cbn [find existsb]; rewrite (String.eqb_sym name x).
  destruct (String.eqb_spec x name) as [->|Hne]; [reflexivity|exact IH].
Qed.

Lemma header_line_declaration (signals_of_interest : list string)
    (line : string) (tb : header_tables) :
  header_line signals_of_interest line tb
  = match declaration signals_of_interest line with
    | Some d => record_declaration tb d
    | None => tb
    end.
Proof.
  unfold declaration, header_line.
  destruct (startswith "$var" line); [|reflexivity].
  pose proof (split_ws_tokens line) as Htok.
  destruct (split_ws line)
    as [|p0 [|kind [|width_text [|var_id [|var_name rest]]]]];
    try reflexivity.
  cbn [List.length Nat.leb nth].
  destruct (in_set kind ["wire"; "reg"; "integer"]); [|reflexivity].
  cbn [negb].
  destruct (py_int 10 width_text) as [width|]; [|reflexivity].
  assert (Hname : is_token var_name = true).
  { do 4 (apply Forall_inv_tail in Htok); now apply Forall_inv in Htok. }
  rewrite (@split_ws_token _ Hname).
  unfold is_token in Hname; apply andb_prop in Hname.
  destruct Hname as [Hne _]; apply negb_true_iff in Hne; rewrite Hne.
  rewrite split_on_before_bracket, find_in_set.
  destruct (in_set (before_bracket var_name) signals_of_interest);
    reflexivity.
Qed.

Lemma declaration_spec (signals_of_interest : list string) (line : string)
    (var_id name : string) (width : Z) :
  declaration signals_of_interest line = Some (var_id, name, width)
  <-> exists keyword kind width_text var_name rest suffix,
        startswith "$var" line = true
        /\ split_ws line
           = keyword :: kind :: width_text :: var_id :: var_name :: rest
        /\ In kind ["wire"; "reg"; "integer"]
        /\ py_int 10 width_text = Some width
        /\ var_name = (name ++ suffix)%string
        /\ no_bracket name = true
        /\ (suffix = EmptyString \/ startswith "[" suffix = true)
        /\ In name signals_of_interest.
Proof.
  unfold declaration; split.
  - destruct (startswith "$var" line); [|discriminate].
    destruct (split_ws line)
      as [|keyword [|kind [|width_text [|var_id' [|var_name rest]]]]];
      try discriminate.
    destruct (in_set kind ["wire"; "reg"; "integer"]) eqn:Hkind;
      [|discriminate].
    destruct (py_int 10 width_text) as [w|] eqn:Hw; [|discriminate].
    cbv zeta.
    destruct (in_set (before_bracket var_name) signals_of_interest)
      eqn:Hwanted; [|discriminate].
    intros [= <- <- <-].
    destruct (before_bracket_spec var_name) as [suffix [H1 [H2 H3]]].
    exists keyword, kind, width_text, var_name, rest, suffix.
    apply in_set_In in Hkind; apply in_set_In in Hwanted.
    repeat split; assumption.
  - intros [keyword [kind [width_text [var_name [rest [suffix
             [Hs [Hp [Hk [Hw [Hn [Hb [Hsuf Hwanted]]]]]]]]]]]]].
    rewrite Hs, Hp.
    apply in_set_In in Hk; rewrite Hk, Hw; cbv zeta.
    rewrite <- split_on_before_bracket, Hn, (@split_on_base _ _ Hb Hsuf).
    apply in_set_In in Hwanted; now rewrite Hwanted.
Qed.

Lemma declaration_wanted (signals_of_interest : list string) (line : string)
    (d : string * string * Z) :
  declaration signals_of_interest line = Some d ->
  In (decl_name d) signals_of_interest.
Proof.
  destruct d as [[var_id name] width]; intros H.
  apply declaration_spec in H.
  destruct H as [? [? [? [? [? [? H]]]]]]; simpl; tauto.
Qed.

Lemma header_pass_fold (signals_of_interest lines : list string)
    (tb : header_tables) :
  header_pass signals_of_interest lines tb
  = fold_left record_declaration (declarations signals_of_interest lines) tb.
Proof.
  unfold declarations; revert tb.
  induction lines as [|line rest IH]; intros tb; simpl; [reflexivity|].
  destruct (contains "$enddefinitions" line); [reflexivity|].
  simpl; rewrite fold_left_app, IH, header_line_declaration.
  now destruct (declaration signals_of_interest line).
Qed.

Lemma fold_record_last (decls : list (string * string * Z))
    (tb : header_tables) (var_id : string) :
  let tb' := fold_left record_declaration decls tb in
  get var_id (signal_ids tb')
  = match last_declaration var_id decls with
    | Some d => Some (decl_name d)
    | None => get var_id (signal_ids tb)
    end
  /\ get var_id (signal_widths tb')
     = match last_declaration var_id decls with
       | Some d => Some (decl_width d)
       | None => get var_id (signal_widths tb)
       end.
Proof.
  unfold last_declaration.
  induction decls as [|d r IH] using rev_ind; simpl; [tauto|].
  rewrite fold_left_app, rev_unit; simpl.
  rewrite !get_set.
  destruct (String.eqb (decl_id d) var_id); [tauto|exact IH].
Qed.

Lemma set_absent {V : Type} (d : dict V) (k : string) (v : V) :
  ~ In k (keys d) -> set k v d = d ++ [(k, v)].
Proof.
  induction d as [|[k' v'] r IH]; simpl; [reflexivity|].
  intros H; destruct (String.eqb_spec k' k) as [->|Hne]; [tauto|].
  f_equal; apply IH; tauto.
Qed.

Lemma fold_record_distinct (decls : list (string * string * Z))
    (tb : header_tables) :
  keys (signal_widths tb) = keys (signal_ids tb) ->
  NoDup (keys (signal_ids tb) ++ map decl_id decls) ->
  let tb' := fold_left record_declaration decls tb in
  signal_ids tb'
  = signal_ids tb ++ map (fun d => (decl_id d, decl_name d)) decls
  /\ signal_widths tb'
     = signal_widths tb ++ map (fun d => (decl_id d, decl_width d)) decls.
Proof.
  revert tb; induction decls as [|d r IH]; intros tb Hk Hnd;
    cbn [fold_left map].
  - now rewrite !app_nil_r.
  - assert (Hd : ~ In (decl_id d) (keys (signal_ids tb))).
    { cbn [map] in Hnd; apply NoDup_remove_2 in Hnd.
      intros H; apply Hnd, in_or_app; now left. }
    assert (E1 : signal_ids (record_declaration tb d)
                 = signal_ids tb ++ [(decl_id d, decl_name d)]).
    { simpl; now apply set_absent. }
    assert (E2 : signal_widths (record_declaration tb d)
                 = signal_widths tb ++ [(decl_id d, decl_width d)]).
    { simpl; apply set_absent; now rewrite Hk. }
    destruct (IH (record_declaration tb d)) as [H1 H2].
    + rewrite E1, E2; unfold keys in *; rewrite !map_app, Hk; reflexivity.
    + rewrite E1; unfold keys in *; rewrite map_app; cbn [map fst].
      rewrite <- app_assoc; exact Hnd.
    + rewrite H1, H2, E1, E2, <- !app_assoc; split; reflexivity.
Qed.

Lemma In_get {V : Type} (d : dict V) (k : string) (v : V) :
  NoDup (keys d) -> In (k, v) d -> get k d = Some v.
Proof.
  induction d as [|[k' v'] r IH]; simpl; [tauto|].
  intros Hnd [[= -> ->]|Hin].
  - now rewrite String.eqb_refl.
  - apply NoDup_cons_iff in Hnd; destruct Hnd as [Hk Hr].
    destruct (String.eqb_spec k' k) as [->|Hne]; [|auto].
    exfalso; apply Hk; unfold keys.
    change k with (fst (k, v)); now apply in_map.
Qed.

(** C5, as amended.  The tables are keyed by identifier.  An identifier
    has an entry exactly when a declaration of the header section
    carries it, and the entry holds the name and the width of the last
    such declaration.  The declarations are spelled out: a line of the
    header section that starts with [$var], whose tokens are a keyword,
    a kind among wire, reg and integer, a width that reads as an
    integer, the identifier and the name, and whose name, up to its
    first opening bracket, is a wanted name; the declaration carries
    the identifier, the name without its range and the width.  When the
    declarations have pairwise distinct identifiers, a name declared
    exactly once is the value of exactly one entry, under the
    identifier and with the width of its declaration. *)
Theorem header_table_by_identifier
    (signals_of_interest lines : list string) :
  let tb := header_pass signals_of_interest lines empty_tables in
  let decls := declarations signals_of_interest lines in
  (forall var_id,
      get var_id (signal_ids tb)
      = option_map decl_name (last_declaration var_id decls)
      /\ get var_id (signal_widths tb)
         = option_map decl_width (last_declaration var_id decls))
  /\ (forall var_id name width,
        In (var_id, name, width) decls
        <-> exists line keyword kind width_text var_name rest suffix,
              In line (header_section lines)
              /\ startswith "$var" line = true
              /\ split_ws line
                 = keyword :: kind :: width_text :: var_id :: var_name
                   :: rest
              /\ In kind ["wire"; "reg"; "integer"]
              /\ py_int 10 width_text = Some width
              /\ var_name = (name ++ suffix)%string
              /\ no_bracket name = true
              /\ (suffix = EmptyString \/ startswith "[" suffix = true)
              /\ In name signals_of_interest)
  /\ (NoDup (map decl_id decls) ->
      forall d,
        In d decls ->
        count_occ string_dec (map decl_name decls) (decl_name d) = 1%nat ->
        count_occ string_dec (values (signal_ids tb)) (decl_name d) = 1%nat
        /\ get (decl_id d) (signal_ids tb) = Some (decl_name d)
        /\ get (decl_id d) (signal_widths tb) = Some (decl_width d)).
Proof.
  intros tb decls; subst tb decls; rewrite header_pass_fold.
  set (decls := declarations signals_of_interest lines).
  split; [|split].
  - intros var_id.
    destruct (fold_record_last decls empty_tables var_id) as [H1 H2].
    rewrite H1, H2; now destruct (last_declaration var_id decls).
  - intros var_id name width; unfold decls, declarations.
    rewrite in_flat_map; split.
    + intros [line [Hl Hd]].
      destruct (declaration signals_of_interest line) as [d'|] eqn:E;
        [|contradiction].
      destruct Hd as [->|[]]; apply declaration_spec in E.
      destruct E as [keyword [kind [width_text [var_name [rest [suffix E]]]]]].
      exists line, keyword, kind, width_text, var_name, rest, suffix.
      split; [exact Hl|exact E].
    + intros [line [keyword [kind [width_text [var_name [rest [suffix
               [Hl E]]]]]]]].
      exists line; split; [exact Hl|].
      assert (Hd : declaration signals_of_interest line
                   = Some (var_id, name, width)).
      { apply declaration_spec.
        now exists keyword, kind, width_text, var_name, rest, suffix. }
      rewrite Hd; now left.
  - intros Hnd d Hd Hone.
    destruct (@fold_record_distinct decls empty_tables eq_refl Hnd)
      as [H1 H2]; simpl in H1, H2.
    rewrite H1, H2; split; [|split].
    + unfold values; now rewrite map_map.
    + apply In_get.
      * unfold keys; now rewrite map_map.
      * apply in_map_iff; now exists d.
    + apply In_get.
      * unfold keys; now rewrite map_map.
      * apply in_map_iff; now exists d.
Qed.

Lemma header_table_by_identifier_witness :
  let tb :=
    header_pass ["state_select"; "b"] (scenario_trace "state_select" "b")
      empty_tables in
  count_occ string_dec (values (signal_ids tb)) "b" = 1%nat
  /\ get "%" (signal_ids tb) = Some "b"
  /\ get "%" (signal_widths tb) = Some 4.
Proof.
  refine (proj2 (proj2 (header_table_by_identifier ["state_select"; "b"]
                          (scenario_trace "state_select" "b")))
            _ ("%", "b", 4) _ _).
  - repeat constructor; simpl; intuition discriminate.
  - simpl; tauto.
  - reflexivity.
Defined.

(** C5, as stated, fails: two declarations share the base name
    [theta_x] under two identifiers.  Both stay in the table: the name
    is the value of two entries, and the first declaration, of width 4,
    has not been replaced by the last. *)
Lemma header_same_name_two_entries :
  let tb := header_pass ["theta_x"] two_scope_header empty_tables in
  declarations ["theta_x"] two_scope_header
  = [("!", "theta_x", 4); ("%", "theta_x", 8)]
  /\ signal_ids tb = [("!", "theta_x"); ("%", "theta_x")]
  /\ signal_widths tb = [("!", 4); ("%", 8)]
  /\ count_occ string_dec (values (signal_ids tb)) "theta_x" = 2%nat
  /\ count_occ string_dec (values (signal_ids tb)) "theta_x" <> 1%nat.
Proof.
  repeat split; discriminate.
Qed.

(** ** The sampler *)

Lemma has_samples_set (data : dict (list Z)) (k name : string)
    (l : list Z) :
  l <> [] ->
  has_samples name (set k l data) <-> has_samples name data \/ name = k.
Proof.
  intros Hl; unfold has_samples; rewrite get_set.
  destruct (String.eqb_spec k name) as [->|Hne]; split.
  - intros _; now right.
  - intros _; now exists l.
  - intros H; now left.
  - intros [H|E]; [exact H|now symmetry in E].
Qed.

Lemma snapshot_spec (last : dict Z) (ids : dict string) :
  forall data : dict (list Z),
    (forall var_id name, In (var_id, name) ids -> In name (keys data)) ->
    exists data',
      snapshot ids last data = Some data'
      /\ keys data' = keys data
      /\ (forall name,
            has_samples name data'
            <-> has_samples name data
                \/ exists var_id,
                     In (var_id, name) ids /\ mem var_id last = true).
Proof.
  induction ids as [|[var_id nm] r IH]; intros data Hk.
  - exists data; repeat split; auto.
    + intros [H|[x [[] _]]]; exact H.
  - cbn [snapshot].
    destruct (get var_id last) as [v|] eqn:E.
    + assert (Hin : In nm (keys data)) by (apply (Hk var_id); now left).
      destruct (get nm data) as [l|] eqn:El;
        [|apply get_None_keys in El; contradiction].
      destruct (IH (set nm (l ++ [v]) data)) as [data' [Hrun [Hkeys Hs]]].
      { intros x name Hx; rewrite keys_set_present by assumption.
        apply (Hk x); now right. }
      exists data'; split; [exact Hrun|split].
      * now rewrite Hkeys, keys_set_present.
      * intros name; rewrite Hs, has_samples_set
          by (destruct l; discriminate).
        split.
        -- intros [[H| ->]|[x [Hx Hm]]].
           ++ now left.
           ++ right; exists var_id; split; [now left|].
              unfold mem; now rewrite E.
           ++ right; exists x; split; [now right|exact Hm].
        -- intros [H|[x [[[= -> ->]|Hx] Hm]]].
           ++ left; now left.
           ++ left; now right.
           ++ right; now exists x.
    + destruct (IH data) as [data' [Hrun [Hkeys Hs]]].
      { intros x name Hx; apply (Hk x); now right. }
      exists data'; split; [exact Hrun|split; [exact Hkeys|]].
      intros name; rewrite Hs; split.
      * intros [H|[x [Hx Hm]]]; [now left|].
        right; exists x; split; [now right|exact Hm].
      * intros [H|[x [[[= -> ->]|Hx] Hm]]]; [now left| |].
        -- unfold mem in Hm; rewrite E in Hm; discriminate.
        -- right; now exists x.
Qed.

Lemma twos_complement_integer (val bits : Z) (signed : bool) :
  0 <= bits -> exists v, twos_complement val bits signed = Some v.
Proof.
  intros Hb; unfold twos_complement.
  destruct (negb signed); [now eexists|].
  destruct (bits <? 0) eqn:E; [apply Z.ltb_lt in E; lia|].
  destruct (bits =? 0); [destruct (1 <=? val); now eexists|].
  destruct (2 ^ (bits - 1) <=? val); now eexists.
Qed.

Lemma widths_ok_get (tb : header_tables) (var_id : string) :
  widths_ok tb = true ->
  0 <= match get var_id (signal_widths tb) with
       | Some w => w
       | None => 18
       end.
Proof.
  intros Hw; destruct (get var_id (signal_widths tb)) as [w|] eqn:E; [|lia].
  apply get_In in E; unfold widths_ok in Hw.
  rewrite forallb_forall in Hw; specialize (Hw _ E); simpl in Hw.
  now apply Z.leb_le.
Qed.

(** A line that is not a marker: either [twos_complement] leaves the
    integers, which takes a negative width, or the loop goes on with the
    same sequences and the same count of markers. *)
Lemma decode_line_event (tb : header_tables) (max_samples : Z)
    (raw : string) (st : decoder_state) :
  is_marker raw = false ->
  (decode_line tb max_samples raw st = NonInteger /\ widths_ok tb = false)
  \/ exists st',
       decode_line tb max_samples raw st = Continue st'
       /\ signal_data st' = signal_data st
       /\ sample_count st' = sample_count st.
Proof.
  intros Hm; unfold decode_line.
  change (startswith "#" (strip raw)) with (is_marker raw); rewrite Hm.
  destruct (startswith "b" (strip raw)).
  - destruct (List.length (split_ws (strip raw)) =? 2)%nat;
      [|right; now exists st].
    destruct (get _ (signal_ids tb)) as [sig_name|]; [|right; now exists st].
    destruct (py_int 2 _) as [val|]; [|right; now exists st].
    destruct (twos_complement val _ _) as [v|] eqn:Hv;
      [right; now eexists|left; split; [reflexivity|]].
    destruct (widths_ok tb) eqn:Hw; [exfalso|reflexivity].
    destruct (twos_complement_integer val
                (negb (in_set sig_name UNSIGNED_SIGNALS))
                (widths_ok_get tb (nth 1 (split_ws (strip raw)) "") Hw))
      as [v Hv'].
    rewrite Hv' in Hv; discriminate.
  - right.
    destruct (strip raw) as [|val_char [|c r]]; try (now exists st).
    destruct (in_set _ _); [|now exists st].
    destruct (mem _ _); [|now exists st].
    destruct (Ascii.eqb val_char "1"); [now eexists|].
    destruct (Ascii.eqb val_char "0"); [now eexists|now exists st].
Qed.

(** A marker line: either the text after [#] is not an integer and
    [ValueError] is raised, or there is one more marker, and a snapshot
    when the count is a multiple of 10. *)
Lemma decode_line_marker (tb : header_tables) (max_samples : Z)
    (raw : string) (st : decoder_state) :
  is_marker raw = true ->
  (forall var_id name,
      In (var_id, name) (signal_ids tb) -> In name (keys (signal_data st))) ->
  (decode_line tb max_samples raw st = Raise ValueError
   /\ timestamps_ok [raw] = false)
  \/ exists st',
       (decode_line tb max_samples raw st = Continue st'
        \/ decode_line tb max_samples raw st = Break st')
       /\ timestamps_ok [raw] = true
       /\ sample_count st' = sample_count st + 1
       /\ last_values st' = last_values st
       /\ keys (signal_data st') = keys (signal_data st)
       /\ ((sample_count st + 1) mod 10 <> 0 ->
           signal_data st' = signal_data st)
       /\ (forall name,
             has_samples name (signal_data st')
             <-> has_samples name (signal_data st)
                 \/ ((sample_count st + 1) mod 10 = 0
                     /\ exists var_id,
                          In (var_id, name) (signal_ids tb)
                          /\ mem var_id (last_values st) = true)).
Proof.
  intros Hm Hk; unfold decode_line.
  change (startswith "#" (strip raw)) with (is_marker raw); rewrite Hm.
  cbn [timestamps_ok forallb]; rewrite Hm; cbn [negb orb].
  destruct (py_int 10 (tail (strip raw))) as [t|];
    [right|left; split; reflexivity].
  destruct (Z.eqb_spec ((sample_count st + 1) mod 10) 0) as [E|E].
  - destruct (snapshot_spec (last_values st) (signal_ids tb)
                (signal_data st) Hk) as [data' [Hrun [Hkeys Hs]]].
    rewrite Hrun.
    eexists; split;
      [destruct (max_samples * 10 <=? sample_count st + 1);
       [right|left]; reflexivity|].
    simpl; repeat split; auto; try contradiction.
    + intros H; apply Hs in H; tauto.
    + intros H; apply Hs; tauto.
  - eexists; split;
      [destruct (max_samples * 10 <=? sample_count st + 1);
       [right|left]; reflexivity|].
    simpl; repeat split; auto; tauto.
Qed.

Lemma snapshot_records_cons (tb : header_tables) (max_samples : Z)
    (st0 : decoder_state) (raw : string) (rest : list string)
    (name : string) :
  snapshot_records tb max_samples st0 (raw :: rest) name
  <-> (is_marker raw = true
       /\ (sample_count st0 + 1) mod 10 = 0
       /\ exists var_id,
            get var_id (signal_ids tb) = Some name
            /\ mem var_id (last_values st0) = true)
      \/ (exists st1,
            decode_line tb max_samples raw st0 = Continue st1
            /\ snapshot_records tb max_samples st1 rest name).
Proof.
  unfold snapshot_records; split.
  - intros [k [line [st [var_id (H1 & H2 & H3 & H4 & H5 & H6)]]]].
    destruct k as [|k]; cbn [nth_error firstn decode_lines] in H1, H2.
    + injection H1 as <-; injection H2 as <-.
      left; repeat split; auto; now exists var_id.
    + destruct (decode_line tb max_samples raw st0) as [st1| | |] eqn:E;
        try discriminate.
      right; exists st1; split; [reflexivity|].
      now exists k, line, st, var_id.
  - intros [(H3 & H4 & var_id & H5 & H6)
           |[st1 [E [k [line [st [var_id (H1 & H2 & H')]]]]]]].
    + now exists 0%nat, raw, st0, var_id.
    + exists (S k), line, st, var_id; cbn [nth_error firstn decode_lines].
      now rewrite E.
Qed.

Lemma count_markers_cons (raw : string) (rest : list string) :
  count_markers (raw :: rest)
  = (if is_marker raw then 1 else 0) + count_markers rest.
Proof.
  unfold count_markers; cbn [filter]; destruct (is_marker raw);
    cbn [List.length]; lia.
Qed.

Lemma count_markers_nonneg (lines : list string) : 0 <= count_markers lines.
Proof. unfold count_markers; lia. Qed.

Lemma count_markers_sections (lines : list string) :
  count_markers lines
  = count_markers (header_section lines) + count_markers (body_section lines).
Proof.
  induction lines as [|line rest IH]; [reflexivity|].
  cbn [header_section body_section].
  destruct (contains "$enddefinitions" line); [reflexivity|].
  rewrite !count_markers_cons, IH; lia.
Qed.

Lemma timestamps_ok_cons (raw : string) (rest : list string) :
  timestamps_ok (raw :: rest) = timestamps_ok [raw] && timestamps_ok rest.
Proof. cbn [timestamps_ok forallb]; now rewrite andb_true_r. Qed.

(** The second loop, from any state whose sequences cover the names of
    the table.  Either it stops on a [ValueError] or leaves the
    integers, which takes a marker without an integer or a negative
    width; or it ends, by exhaustion or by [break], and then: a
    sequence holds a sample at the end exactly when it held one at the
    start or some snapshot recorded one for its name; with fewer than
    ten markers in all, the sequences are those of the start. *)
Lemma decode_lines_records (tb : header_tables) (max_samples : Z) :
  NoDup (keys (signal_ids tb)) ->
  forall (lines : list string) (st0 : decoder_state),
    (forall var_id name,
        In (var_id, name) (signal_ids tb) ->
        In name (keys (signal_data st0))) ->
    ((decode_lines tb max_samples lines st0 = Raise ValueError
      \/ decode_lines tb max_samples lines st0 = NonInteger)
     /\ timestamps_ok lines && widths_ok tb = false)
    \/ exists st,
         (decode_lines tb max_samples lines st0 = Continue st
          \/ decode_lines tb max_samples lines st0 = Break st)
         /\ keys (signal_data st) = keys (signal_data st0)
         /\ (forall name,
               has_samples name (signal_data st)
               <-> has_samples name (signal_data st0)
                   \/ snapshot_records tb max_samples st0 lines name)
         /\ (0 <= sample_count st0 ->
             sample_count st0 + count_markers lines < 10 ->
             signal_data st = signal_data st0).
Proof.
  intros Hnd lines; induction lines as [|raw rest IH]; intros st0 Hwf.
  - right; exists st0.
    split; [now left|split; [reflexivity|split; [|reflexivity]]].
    intros name; split; [now left|].
    intros [H|[k [line [st [x (H1 & _)]]]]]; [exact H|].
    destruct k; discriminate.
  - rewrite count_markers_cons, timestamps_ok_cons.
    pose proof (count_markers_nonneg rest) as Hpos.
    destruct (is_marker raw) eqn:Hm.
    + destruct (decode_line_marker tb max_samples raw st0 Hm Hwf)
        as [[Hstep Hbad]
           |[st1 [Hstep (Hok & Hcnt & Hlast & Hkeys & Hsame & Hs)]]].
      { left; split; [left; cbn [decode_lines]; now rewrite Hstep|].
        now rewrite Hbad. }
      assert (Hs' : forall name,
                 has_samples name (signal_data st1)
                 <-> has_samples name (signal_data st0)
                     \/ ((sample_count st0 + 1) mod 10 = 0
                         /\ exists var_id,
                              get var_id (signal_ids tb) = Some name
                              /\ mem var_id (last_values st0) = true)).
      { intros name; rewrite Hs; split;
          (intros [H|[H1 [x [H2 H3]]]]; [now left|right]);
          (split; [exact H1|exists x; split; [|exact H3]]).
        - now apply In_get.
        - now apply get_In. }
      assert (Hfew : 0 <= sample_count st0 ->
                     sample_count st0 + (1 + count_markers rest) < 10 ->
                     signal_data st1 = signal_data st0).
      { intros H0 H10; apply Hsame; rewrite Z.mod_small; lia. }
      destruct Hstep as [Hstep|Hstep].
      * destruct (IH st1) as [[Hrun Hbad]|[st [Hrun (Hk & Hiff & Hno)]]].
        { intros x name Hx; rewrite Hkeys; eauto. }
        { left; split;
            [cbn [decode_lines]; rewrite Hstep; exact Hrun|].
          now rewrite Hok. }
        right; exists st; split;
          [cbn [decode_lines]; rewrite Hstep; exact Hrun|].
        split; [now rewrite Hk|split].
        -- intros name.
           rewrite Hiff, Hs', snapshot_records_cons, Hm.
           split.
           ++ intros [[H|H]|H]; [now left| |].
              ** right; left; tauto.
              ** right; right; now exists st1.
           ++ intros [H|[H|[st1' [E H]]]]; [left; now left| |].
              ** left; right; tauto.
              ** rewrite Hstep in E; injection E as <-; now right.
        -- intros H0 H10; rewrite Hno, Hfew; try lia; reflexivity.
      * right; exists st1; split;
          [right; cbn [decode_lines]; now rewrite Hstep|].
        split; [exact Hkeys|split; [|exact Hfew]].
        intros name; rewrite Hs', snapshot_records_cons, Hm; split.
        -- intros [H|H]; [now left|right; left; tauto].
        -- intros [H|[H|[st1' [E _]]]]; [now left|right; tauto|].
           rewrite Hstep in E; discriminate.
    + destruct (decode_line_event tb max_samples raw st0 Hm)
        as [[Hstep Hbad]|[st1 [Hstep [Hdata Hcnt]]]].
      { left; split; [right; cbn [decode_lines]; now rewrite Hstep|].
        rewrite Hbad; apply andb_false_r. }
      destruct (IH st1) as [[Hrun Hbad]|[st [Hrun (Hk & Hiff & Hno)]]].
      { intros x name Hx; rewrite Hdata; eauto. }
      { left; split; [cbn [decode_lines]; rewrite Hstep; exact Hrun|].
        cbn [timestamps_ok forallb]; rewrite Hm; exact Hbad. }
      right; exists st; split;
        [cbn [decode_lines]; rewrite Hstep; exact Hrun|].
      split; [now rewrite Hk, Hdata|split].
      * intros name; rewrite Hiff, Hdata, snapshot_records_cons, Hm.
        split.
        -- intros [H|H]; [now left|right; right; now exists st1].
        -- intros [H|[[H _]|[st1' [E H]]]]; [now left|discriminate|].
           rewrite Hstep in E; injection E as <-; now right.
      * intros H0 H10; rewrite Hno, Hdata; try lia; reflexivity.
Qed.

Lemma fold_record_NoDup (decls : list (string * string * Z))
    (tb : header_tables) :
  NoDup (keys (signal_ids tb)) ->
  NoDup (keys (signal_ids (fold_left record_declaration decls tb))).
Proof.
  revert tb; induction decls as [|d r IH]; intros tb Hnd; simpl; [exact Hnd|].
  apply IH; simpl; now apply NoDup_keys_set.
Qed.

Lemma header_ids_wanted (signals_of_interest lines : list string)
    (var_id name : string) :
  In (var_id, name)
    (signal_ids (header_pass signals_of_interest lines empty_tables)) ->
  In name signals_of_interest.
Proof.
  rewrite header_pass_fold; intros Hin.
  set (decls := declarations signals_of_interest lines) in *.
  assert (Hnd : NoDup (keys (signal_ids
                              (fold_left record_declaration decls
                                 empty_tables))))
    by (apply fold_record_NoDup; constructor).
  apply In_get in Hin; [|exact Hnd].
  destruct (fold_record_last decls empty_tables var_id) as [H1 _].
  rewrite H1 in Hin.
  destruct (last_declaration var_id decls) as [d|] eqn:E; [|discriminate].
  injection Hin as <-.
  unfold last_declaration in E; apply find_some in E; destruct E as [E _].
  apply in_rev in E; unfold decls, declarations in E.
  apply in_flat_map in E; destruct E as [line [_ Hd]].
  destruct (declaration signals_of_interest line) as [d'|] eqn:E';
    [|contradiction].
  destruct Hd as [<-|[]]; eapply declaration_wanted; eassumption.
Qed.

Lemma Forall_set {V : Type} (P : string * V -> Prop) (d : dict V)
    (k : string) (v : V) :
  Forall P d -> P (k, v) -> Forall P (set k v d).
Proof.
  intros Hd Hkv; induction d as [|[k' v'] r IH]; simpl.
  - now constructor.
  - apply Forall_cons_iff in Hd; destruct Hd as [H1 H2].
    destruct (String.eqb k' k); constructor; auto.
Qed.

Lemma keys_set_In {V : Type} (d : dict V) (k name : string) (v : V) :
  In name (keys (set k v d)) <-> In name (keys d) \/ name = k.
Proof.
  destruct (in_dec string_dec k (keys d)) as [Hin|Hni].
  - rewrite keys_set_present by assumption; split; [tauto|].
    intros [H| ->]; assumption.
  - rewrite keys_set_absent by assumption; rewrite in_app_iff; simpl.
    intuition.
Qed.

Lemma init_signal_data_spec (ids : dict string)
    (signals_of_interest : list string) :
  forall acc : dict (list Z),
    let d := init_signal_data signals_of_interest ids acc in
    (NoDup (keys acc) -> NoDup (keys d))
    /\ (forall name,
          In name (keys d)
          <-> In name (keys acc)
              \/ (In name signals_of_interest /\ In name (values ids)))
    /\ (Forall (fun kv => snd kv = []) acc ->
        Forall (fun kv => snd kv = []) d).
Proof.
  induction signals_of_interest as [|sig r IH]; intros acc; simpl.
  - repeat split; auto; tauto.
  - destruct (IH (if in_set sig (values ids) then set sig [] acc else acc))
      as [H1 [H2 H3]].
    split; [|split].
    + intros Hnd; apply H1.
      destruct (in_set sig (values ids)); [now apply NoDup_keys_set|exact Hnd].
    + intros name; rewrite H2.
      destruct (in_set sig (values ids)) eqn:E.
      * apply in_set_In in E; rewrite keys_set_In; split.
        -- intros [[H| ->]|[Ha Hb]]; [now left| |]; right; tauto.
        -- intros [H|[[<-|Ha] Hb]];
             [left; now left|left; now right|right; tauto].
      * split; [tauto|].
        intros [H|[[<-|Ha] Hb]]; [now left| |right; tauto].
        apply in_set_In in Hb; congruence.
    + intros Hall; apply H3.
      destruct (in_set sig (values ids)); [|exact Hall].
      now apply Forall_set.
Qed.

Lemma nonempty_series_empty (data : dict (list Z)) :
  Forall (fun kv => snd kv = []) data -> nonempty_series data = [].
Proof.
  induction 1 as [|[k l] r Hl _ IH]; simpl; [reflexivity|].
  simpl in Hl; subst l; exact IH.
Qed.

Lemma mem_nonempty_series (data : dict (list Z)) (name : string) :
  NoDup (keys data) ->
  mem name (nonempty_series data) = true <-> has_samples name data.
Proof.
  intros Hnd; rewrite mem_keys; unfold has_samples, nonempty_series, keys.
  rewrite in_map_iff; split.
  - intros [[k l] [E Hin]]; simpl in E; subst k.
    apply filter_In in Hin; destruct Hin as [Hin Hl]; simpl in Hl.
    exists l; split; [now apply In_get|].
    intros ->; discriminate.
  - intros [l [Hget Hl]]; exists (name, l); split; [reflexivity|].
    apply filter_In; split; [now apply get_In|].
    destruct l; [contradiction|reflexivity].
Qed.

(** C10, as amended.  Whenever [parse_vcd_lightweight] returns a
    mapping, a signal name has an entry in it exactly when some
    snapshot recorded a last-known value for the name, and the mapping
    is empty when fewer than ten lines of the file are timestamp
    markers, whatever was declared and whatever events were received.
    The second loop reads the file from its first line, so the markers
    are counted over all the lines, those of the header section
    included; when no line of the header section is taken for a marker,
    they are the markers of the body.  The function does return a
    mapping on every trace whose marker lines all carry an integer and
    whose recorded widths are not negative. *)
Theorem result_entries_iff_recorded
    (vcd_file signals_of_interest : list string) (max_samples : Z) :
  let tb := header_pass signals_of_interest vcd_file empty_tables in
  (forall res,
      parse_vcd_lightweight vcd_file signals_of_interest max_samples
      = Ok res ->
      (forall name,
          mem name res = true
          <-> snapshot_records tb max_samples
                (initial_state signals_of_interest tb) vcd_file name)
      /\ (count_markers vcd_file < 10 -> res = [])
      /\ (count_markers (header_section vcd_file) = 0 ->
          count_markers (body_section vcd_file) < 10 -> res = []))
  /\ (timestamps_ok vcd_file = true ->
      widths_ok tb = true ->
      exists res,
        parse_vcd_lightweight vcd_file signals_of_interest max_samples
        = Ok res).
Proof.
  intros tb.
  assert (Hnd : NoDup (keys (signal_ids tb))).
  { unfold tb; rewrite header_pass_fold; apply fold_record_NoDup.
    constructor. }
  pose proof (init_signal_data_spec (signal_ids tb) signals_of_interest [])
    as [Hi1 [Hi2 Hi3]]; cbn zeta in Hi1, Hi2, Hi3.
  assert (Hwf : forall var_id name,
             In (var_id, name) (signal_ids tb) ->
             In name (keys (signal_data
                              (initial_state signals_of_interest tb)))).
  { intros var_id name Hin; simpl; apply Hi2; right; split.
    - eapply header_ids_wanted; exact Hin.
    - unfold values; change name with (snd (var_id, name)).
      now apply in_map. }
  assert (Hnone : forall name,
             ~ has_samples name
                 (signal_data (initial_state signals_of_interest tb))).
  { intros name [l [Hget Hl]]; simpl in Hget; apply get_In in Hget.
    specialize (Hi3 (Forall_nil _)); rewrite Forall_forall in Hi3.
    apply Hi3 in Hget; simpl in Hget; contradiction. }
  unfold parse_vcd_lightweight; fold tb.
  destruct (@decode_lines_records tb max_samples Hnd vcd_file
              (initial_state signals_of_interest tb) Hwf)
    as [[Hrun Hbad]|[st [Hrun (Hkeys & Hiff & Hfew)]]].
  - split.
    + intros res; destruct Hrun as [-> | ->]; discriminate.
    + intros Hts Hw; rewrite Hts, Hw in Hbad; discriminate.
  - assert (Hres : match decode_lines tb max_samples vcd_file
                           (initial_state signals_of_interest tb) with
                   | Continue st' | Break st' =>
                       Ok (nonempty_series (signal_data st'))
                   | Raise e => Raised e
                   | NonInteger => LeftIntegers
                   end = Ok (nonempty_series (signal_data st)))
      by (destruct Hrun as [-> | ->]; reflexivity).
    rewrite Hres; split; [|intros _ _; now eexists].
    intros res [= <-]; split.
    + intros name; rewrite mem_nonempty_series.
      * rewrite Hiff; split; [intros [H|H]; [now apply Hnone in H|exact H]|].
        now right.
      * rewrite Hkeys; simpl; apply Hi1; constructor.
    + assert (Hempty : count_markers vcd_file < 10 ->
                       nonempty_series (signal_data st) = []).
      { intros Hlt; rewrite Hfew; simpl; try lia.
        apply nonempty_series_empty, Hi3; constructor. }
      split; [exact Hempty|].
      intros H0 Hlt; apply Hempty; rewrite count_markers_sections; lia.
Qed.

Lemma result_entries_iff_recorded_witness :
  ((forall name,
       mem name [("state_select", [10]); ("b", [-6])] = true
       <-> snapshot_records
             (header_pass ["state_select"; "b"]
                (ten_marker_trace "state_select" "b") empty_tables)
             100000
             (initial_state ["state_select"; "b"]
                (header_pass ["state_select"; "b"]
                   (ten_marker_trace "state_select" "b") empty_tables))
             (ten_marker_trace "state_select" "b") name)
   /\ (count_markers (ten_marker_trace "state_select" "b") < 10 ->
       [("state_select", [10]); ("b", [-6])] = [])
   /\ (count_markers (header_section (ten_marker_trace "state_select" "b"))
       = 0 ->
       count_markers (body_section (ten_marker_trace "state_select" "b"))
       < 10 ->
       [("state_select", [10]); ("b", [-6])] = []))
  /\ (exists res,
        parse_vcd_lightweight (ten_marker_trace "state_select" "b")
          ["state_select"; "b"] 100000
        = Ok res).
Proof.
  split.
  - apply (proj1 (@result_entries_iff_recorded
                    (ten_marker_trace "state_select" "b")
                    ["state_select"; "b"] 100000)
             [("state_select", [10]); ("b", [-6])]).
    reflexivity.
  - apply (proj2 (@result_entries_iff_recorded
                    (ten_marker_trace "state_select" "b")
                    ["state_select"; "b"] 100000)); reflexivity.
Defined.

(** C10, as stated, fails.  The body of the trace, the lines from
    [$enddefinitions] on, has no timestamp marker, fewer than ten; yet
    the result is not the empty mapping.  The ten markers and the event
    stand before [$enddefinitions]: the first loop passes over them,
    and the second loop, which reads the file from its first line,
    counts them and takes a snapshot at the tenth. *)
Lemma early_markers_nonempty_result :
  count_markers (body_section early_marker_trace) = 0
  /\ count_markers (body_section early_marker_trace) < 10
  /\ count_markers early_marker_trace = 10
  /\ parse_vcd_lightweight early_marker_trace ["theta_x"] 100000
     = Ok [("theta_x", [1])]
  /\ parse_vcd_lightweight early_marker_trace ["theta_x"] 100000 <> Ok [].
Proof.
  repeat split; discriminate.
Qed.

(** ** What holds of the budget and of malformed literals *)

(** A vector event whose literal [int(_, 2)] rejects is skipped: the
    decoder state is what it was, and the loop goes on. *)
Lemma malformed_literal_skipped (tb : header_tables) (max_samples : Z)
    (raw tok var_id : string) (st : decoder_state) :
  startswith "b" (strip raw) = true ->
  split_ws (strip raw) = [tok; var_id] ->
  py_int 2 (tail tok) = None ->
  decode_line tb max_samples raw st = Continue st.
Proof.
  intros Hb Hparts Hint; unfold decode_line.
  rewrite (startswith_b_not_marker _ Hb), Hb, Hparts.
  cbn [List.length Nat.eqb nth]; rewrite Hint.
  now destruct (get var_id (signal_ids tb)).
Qed.

Lemma snapshot_lengths (last : dict Z) (ids : dict string) :
  forall data data' : dict (list Z),
    snapshot ids last data = Some data' ->
    (forall name, ~ In name (values ids) -> get name data' = get name data)
    /\ (NoDup (values ids) ->
        forall name l',
          get name data' = Some l' ->
          exists l,
            get name data = Some l
            /\ (List.length l' <= S (List.length l))%nat).
Proof.
  induction ids as [|[var_id nm] r IH]; intros data data' Hrun;
    cbn [snapshot] in Hrun.
  - injection Hrun as <-; split; [reflexivity|].
    intros _ name l' H; exists l'; split; [exact H|lia].
  - destruct (get var_id last) as [v|].
    + destruct (get nm data) as [l|] eqn:El; [|discriminate].
      destruct (IH _ _ Hrun) as [H1 H2]; split.
      * intros name Hni; simpl in Hni; rewrite H1 by tauto.
        apply get_set_other; intros ->; tauto.
      * intros Hnd name l' Hget; simpl in Hnd.
        apply NoDup_cons_iff in Hnd; destruct Hnd as [Hnm Hr].
        destruct (String.eqb_spec nm name) as [<-|Hne].
        -- rewrite (H1 nm Hnm), get_set_same in Hget; injection Hget as <-.
           exists l; split; [exact El|].
           rewrite length_app; simpl; lia.
        -- destruct (H2 Hr name l' Hget) as [l0 [Hl0 Hlen]].
           rewrite get_set_other in Hl0 by assumption.
           now exists l0.
    + destruct (IH _ _ Hrun) as [H1 H2]; split.
      * intros name Hni; apply H1; simpl in Hni; tauto.
      * intros Hnd; apply H2; simpl in Hnd.
        now apply NoDup_cons_iff in Hnd.
Qed.

Lemma decode_line_marker_eq (tb : header_tables) (max_samples : Z)
    (raw : string) (st : decoder_state) :
  is_marker raw = true ->
  decode_line tb max_samples raw st
  = match py_int 10 (tail (strip raw)) with
    | None => Raise ValueError
    | Some t =>
        match (if (sample_count st + 1) mod 10 =? 0
               then snapshot (signal_ids tb) (last_values st) (signal_data st)
               else Some (signal_data st)) with
        | None => Raise KeyError
        | Some data =>
            let st' := {| current_time := t;
                          sample_count := sample_count st + 1;
                          last_values := last_values st;
                          signal_data := data |} in
            if max_samples * 10 <=? sample_count st + 1
            then Break st' else Continue st'
        end
    end.
Proof.
  intros Hm; unfold decode_line.
  change (startswith "#" (strip raw)) with (is_marker raw); now rewrite Hm.
Qed.

(** One line keeps every sequence within one sample per ten markers
    counted, when no two identifiers of the table share a name; the
    loop goes on after a marker only while the count is below
    [max_samples * 10]. *)
Lemma decode_line_within_count (tb : header_tables) (max_samples : Z)
    (raw : string) (st st' : decoder_state) :
  NoDup (values (signal_ids tb)) ->
  within_count st ->
  (decode_line tb max_samples raw st = Continue st' ->
   within_count st'
   /\ (sample_count st' = sample_count st
       \/ (sample_count st' = sample_count st + 1
           /\ sample_count st' < max_samples * 10)))
  /\ (decode_line tb max_samples raw st = Break st' ->
      within_count st' /\ sample_count st' = sample_count st + 1).
Proof.
  intros Hnd Hin.
  destruct (is_marker raw) eqn:Hm.
  - rewrite (decode_line_marker_eq tb max_samples raw st Hm).
    destruct (py_int 10 (tail (strip raw))) as [t|];
      [|split; discriminate].
    assert (Hstep : forall data,
               (if (sample_count st + 1) mod 10 =? 0
                then snapshot (signal_ids tb) (last_values st)
                       (signal_data st)
                else Some (signal_data st)) = Some data ->
               forall name l,
                 get name data = Some l ->
                 10 * Z.of_nat (List.length l) <= sample_count st + 1).
    { intros data Hd name l' Hget.
      destruct (Z.eqb_spec ((sample_count st + 1) mod 10) 0) as [E|E].
      - destruct (snapshot_lengths _ _ _ Hd) as [_ H2].
        destruct (H2 Hnd name l' Hget) as [l [Hl Hlen]].
        specialize (Hin name l Hl).
        pose proof (Z_div_mod_eq_full (sample_count st + 1) 10) as Hdm.
        lia.
      - injection Hd as <-; specialize (Hin name l' Hget); lia. }
    destruct (if (sample_count st + 1) mod 10 =? 0
              then snapshot (signal_ids tb) (last_values st) (signal_data st)
              else Some (signal_data st)) as [data|];
      [|split; discriminate].
    specialize (Hstep data eq_refl); cbn zeta.
    destruct (Z.leb_spec (max_samples * 10) (sample_count st + 1)); split;
      try discriminate; intros [= <-]; split; try exact Hstep;
      simpl; auto.
  - destruct (decode_line_event tb max_samples raw st Hm)
      as [[Hstep _]|[st1 [Hstep [Hdata Hcnt]]]]; rewrite Hstep;
      split; try discriminate.
    intros [= <-]; split; [|now left].
    intros name l Hget; rewrite Hdata in Hget; rewrite Hcnt.
    exact (Hin name l Hget).
Qed.

Lemma decode_lines_within_count (tb : header_tables) (max_samples : Z) :
  NoDup (values (signal_ids tb)) ->
  forall (lines : list string) (st0 st : decoder_state),
    within_count st0 ->
    sample_count st0 = 0 \/ sample_count st0 < max_samples * 10 ->
    decode_lines tb max_samples lines st0 = Continue st
    \/ decode_lines tb max_samples lines st0 = Break st ->
    within_count st /\ sample_count st <= Z.max (max_samples * 10) 1.
Proof.
  intros Hnd lines; induction lines as [|raw rest IH];
    intros st0 st Hin Hk Hrun; cbn [decode_lines] in Hrun.
  - destruct Hrun as [[= <-]|H]; [|discriminate]; split; [exact Hin|lia].
  - destruct (decode_line tb max_samples raw st0) as [st1|st1|e|] eqn:E.
    + destruct (@decode_line_within_count tb max_samples raw st0 st1 Hnd Hin)
        as [H _].
      destruct (H E) as [Hin1 Hc].
      apply (IH st1 st Hin1); [lia|exact Hrun].
    + destruct (@decode_line_within_count tb max_samples raw st0 st1 Hnd Hin)
        as [_ H].
      destruct (H E) as [Hin1 Hc].
      destruct Hrun as [H'|[= <-]]; [discriminate|].
      split; [exact Hin1|lia].
    + destruct Hrun; discriminate.
    + destruct Hrun; discriminate.
Qed.

(** When no two identifiers of the table share a signal name, every
    sequence of the result has at most [max_samples] samples (none when
    [max_samples] is negative). *)
Lemma sequence_length_within_budget
    (vcd_file signals_of_interest : list string) (max_samples : Z)
    (res : dict (list Z)) :
  NoDup (values (signal_ids
                   (header_pass signals_of_interest vcd_file empty_tables))) ->
  parse_vcd_lightweight vcd_file signals_of_interest max_samples = Ok res ->
  forall name l,
    In (name, l) res -> Z.of_nat (List.length l) <= Z.max max_samples 0.
Proof.
  set (tb := header_pass signals_of_interest vcd_file empty_tables).
  intros Hnd Hparse name l Hin.
  pose proof (init_signal_data_spec (signal_ids tb) signals_of_interest [])
    as [Hi1 [Hi2 Hi3]]; cbn zeta in Hi1, Hi2, Hi3.
  assert (Hwf : forall var_id nm,
             In (var_id, nm) (signal_ids tb) ->
             In nm (keys (signal_data
                            (initial_state signals_of_interest tb)))).
  { intros var_id nm Hx; simpl; apply Hi2; right; split.
    - eapply header_ids_wanted; exact Hx.
    - unfold values; change nm with (snd (var_id, nm)); now apply in_map. }
  assert (Hkeys : NoDup (keys (signal_ids tb))).
  { unfold tb; rewrite header_pass_fold; apply fold_record_NoDup.
    constructor. }
  assert (H0 : within_count (initial_state signals_of_interest tb)).
  { intros nm l0 Hget; simpl in Hget; apply get_In in Hget.
    specialize (Hi3 (Forall_nil _)); rewrite Forall_forall in Hi3.
    apply Hi3 in Hget; simpl in Hget; subst l0; simpl; lia. }
  unfold parse_vcd_lightweight in Hparse; fold tb in Hparse.
  destruct (@decode_lines_records tb max_samples Hkeys vcd_file
              (initial_state signals_of_interest tb) Hwf)
    as [[[Hrun|Hrun] _]|[st [Hrun (Hk & _)]]];
    try (rewrite Hrun in Hparse; discriminate).
  destruct (@decode_lines_within_count tb max_samples Hnd vcd_file
              (initial_state signals_of_interest tb) st H0
              (or_introl eq_refl) Hrun) as [Hin' Hcnt].
  assert (Hres : res = nonempty_series (signal_data st)).
  { destruct Hrun as [Hrun|Hrun]; rewrite Hrun in Hparse;
      now injection Hparse. }
  subst res; unfold nonempty_series in Hin; apply filter_In in Hin.
  destruct Hin as [Hin _]; apply In_get in Hin.
  - specialize (Hin' name l Hin); lia.
  - rewrite Hk; simpl; apply Hi1; constructor.
Qed.

(** * Further properties of the parser *)

Lemma sequence_length_within_budget_witness :
  parse_vcd_lightweight (ten_marker_trace "state_select" "b")
    ["state_select"; "b"] 1
  = Ok [("state_select", [10]); ("b", [-6])]
  /\ Z.of_nat (List.length [-6]) <= Z.max 1 0.
Proof.
  split; [reflexivity|].
  apply (@sequence_length_within_budget
           (ten_marker_trace "state_select" "b") ["state_select"; "b"] 1
           [("state_select", [10]); ("b", [-6])]) with (name := "b").
  - repeat constructor; simpl; intuition discriminate.
  - reflexivity.
  - right; now left.
Defined.

Lemma malformed_literal_skipped_witness :
  decode_line wide_literal_tables 100000 "b10x1 %" empty_state
  = Continue empty_state.
Proof.
  apply (@malformed_literal_skipped wide_literal_tables 100000
           "b10x1 %" "b10x1" "%" empty_state); reflexivity.
Defined.

(** ** Lines the decoder passes over *)

(** An event on an identifier that is not in the table, in the vector
    form or in the single-bit form, leaves the decoder state as it was:
    no entry is created for an identifier the header did not resolve. *)
Theorem untracked_identifier_ignored (tb : header_tables) (max_samples : Z)
    (raw tok var_id : string) (c : ascii) (st : decoder_state) :
  mem var_id (signal_ids tb) = false ->
  (startswith "b" (strip raw) = true /\ split_ws (strip raw) = [tok; var_id])
  \/ (strip raw = String c var_id /\ c <> "#"%char /\ c <> "b"%char) ->
  decode_line tb max_samples raw st = Continue st.
Proof.
  intros Hmem [[Hb Hparts]|[Hline [Hc1 Hc2]]]; unfold decode_line.
  - rewrite (startswith_b_not_marker _ Hb), Hb, Hparts.
    cbn [List.length Nat.eqb nth].
    unfold mem in Hmem.
    destruct (get var_id (signal_ids tb)); [discriminate|reflexivity].
  - rewrite Hline; cbn [startswith].
    destruct (Ascii.eqb_spec "#" c) as [E|_]; [now symmetry in E|].
    destruct (Ascii.eqb_spec "b" c) as [E|_]; [now symmetry in E|].
    cbn [andb]; destruct var_id as [|c' r]; [reflexivity|].
    rewrite Hmem; now destruct (in_set _ _).
Qed.

Lemma untracked_identifier_ignored_witness :
  decode_line wide_literal_tables 100000 "1&" empty_state
  = Continue empty_state.
Proof.
  apply (@untracked_identifier_ignored wide_literal_tables 100000
           "1&" "" "&" "1" empty_state); [reflexivity|].
  right; repeat split; discriminate.
Defined.

Lemma dollar_line_ignored (tb : header_tables) (max_samples : Z)
    (raw : string) (st : decoder_state) :
  startswith "$" (strip raw) = true ->
  decode_line tb max_samples raw st = Continue st.
Proof.
  intros H; unfold decode_line.
  destruct (strip raw) as [|c r]; [discriminate|].
  cbn [startswith] in *.
  destruct (Ascii.eqb_spec "$" c) as [<-|]; [|discriminate].
  destruct r; reflexivity.
Qed.

(** The second loop reads the file again from its first line.  When
    every line of the header starts, white space apart, with [$] (as
    [$scope], [$var], [$upscope], [$enddefinitions] do), reading it
    changes nothing: decoding header and body is decoding the body. *)
Theorem header_lines_do_not_decode (tb : header_tables) (max_samples : Z)
    (header body : list string) (st : decoder_state) :
  Forall (fun raw => startswith "$" (strip raw) = true) header ->
  decode_lines tb max_samples (header ++ body) st
  = decode_lines tb max_samples body st.
Proof.
  induction 1 as [|raw rest Hraw _ IH]; [reflexivity|].
  cbn [app decode_lines]; now rewrite (dollar_line_ignored tb _ _ _ Hraw).
Qed.

Lemma header_lines_do_not_decode_witness :
  decode_lines wide_literal_tables 100000
    (["$scope module tb $end"; "  $upscope $end"; "$enddefinitions $end"]
     ++ ["b0111 %"; "#0"]) empty_state
  = decode_lines wide_literal_tables 100000 ["b0111 %"; "#0"] empty_state.
Proof.
  apply (@header_lines_do_not_decode wide_literal_tables 100000
           ["$scope module tb $end"; "  $upscope $end";
            "$enddefinitions $end"]
           ["b0111 %"; "#0"] empty_state).
  repeat constructor.
Defined.

(** ** How the second loop composes *)

Lemma decode_lines_app (tb : header_tables) (max_samples : Z)
    (l1 l2 : list string) (st0 : decoder_state) :
  decode_lines tb max_samples (l1 ++ l2) st0
  = match decode_lines tb max_samples l1 st0 with
    | Continue st1 => decode_lines tb max_samples l2 st1
    | o => o
    end.
Proof.
  revert st0; induction l1 as [|raw rest IH]; intros st0;
    cbn [app decode_lines]; [reflexivity|].
  destruct (decode_line tb max_samples raw st0); auto.
Qed.

Lemma header_pass_cut (signals_of_interest pre post : list string)
    (tb : header_tables) :
  existsb (contains "$enddefinitions") pre = true ->
  header_pass signals_of_interest (pre ++ post) tb
  = header_pass signals_of_interest pre tb.
Proof.
  revert tb; induction pre as [|line rest IH]; intros tb;
    cbn [existsb app header_pass]; [discriminate|].
  destruct (contains "$enddefinitions" line); [reflexivity|].
  cbn [orb]; apply IH.
Qed.

Lemma decode_lines_stops (tb : header_tables) (max_samples : Z)
    (lines : list string) (st st' : decoder_state) :
  1 <= count_markers lines ->
  max_samples * 10 <= sample_count st + count_markers lines ->
  decode_lines tb max_samples lines st <> Continue st'.
Proof.
  revert st; induction lines as [|raw rest IH]; intros st.
  - unfold count_markers; cbn [filter List.length]; lia.
  - rewrite count_markers_cons; cbn [decode_lines]; intros H1 H2.
    destruct (is_marker raw) eqn:Hm.
    + rewrite (decode_line_marker_eq tb max_samples raw st Hm).
      destruct (py_int 10 (tail (strip raw))) as [t|]; [|discriminate].
      destruct (if (sample_count st + 1) mod 10 =? 0
                then snapshot (signal_ids tb) (last_values st)
                       (signal_data st)
                else Some (signal_data st)) as [data|]; [|discriminate].
      cbv zeta.
      destruct (Z.leb_spec (max_samples * 10) (sample_count st + 1))
        as [_|Hlt]; [discriminate|].
      apply IH; cbn [sample_count]; lia.
    + destruct (decode_line_event tb max_samples raw st Hm)
        as [[E _]|[st1 [E [_ Hsc]]]]; rewrite E; [discriminate|].
      apply IH; [lia|rewrite Hsc; lia].
Qed.

(** The lines after the budget are never read.  Once the header
    section is closed and the file has shown [max_samples * 10]
    timestamp markers (and one marker at least), nothing that follows
    has any effect on what the function returns or raises: not an
    event, not a marker, not even a marker that carries no integer.
    The outcome is that of the file cut at that point. *)
Theorem lines_after_budget_not_read
    (pre post signals_of_interest : list string) (max_samples : Z) :
  existsb (contains "$enddefinitions") pre = true ->
  1 <= count_markers pre ->
  max_samples * 10 <= count_markers pre ->
  parse_vcd_lightweight (pre ++ post) signals_of_interest max_samples
  = parse_vcd_lightweight pre signals_of_interest max_samples.
Proof.
  intros Hend H1 Hbudget; unfold parse_vcd_lightweight.
  rewrite (@header_pass_cut signals_of_interest pre post empty_tables Hend).
  cbv zeta; rewrite decode_lines_app.
  destruct (decode_lines (header_pass signals_of_interest pre empty_tables)
              max_samples pre
              (initial_state signals_of_interest
                 (header_pass signals_of_interest pre empty_tables)))
    as [st1| | |] eqn:E; try reflexivity.
  exfalso; revert E; apply decode_lines_stops; [exact H1|].
  cbn [initial_state sample_count]; lia.
Qed.

Lemma lines_after_budget_not_read_witness :
  parse_vcd_lightweight
    (ten_marker_trace "state_select" "b" ++ ["b0001 %"; "#abc"; "#100"])
    ["state_select"; "b"] 1
  = parse_vcd_lightweight (ten_marker_trace "state_select" "b")
      ["state_select"; "b"] 1.
Proof.
  apply (@lines_after_budget_not_read
           (ten_marker_trace "state_select" "b")
           ["b0001 %"; "#abc"; "#100"] ["state_select"; "b"] 1).
  - reflexivity.
  - vm_compute; discriminate.
  - vm_compute; discriminate.
Defined.

(** The count of the decoder is the number of marker lines read: it
    has grown by the markers of the lines when the loop runs through
    them, and it is at least [max_samples * 10], and no more than that
    number of markers further, when the loop stops on the budget. *)
Theorem sample_count_counts_markers (tb : header_tables) (max_samples : Z)
    (lines : list string) (st0 st : decoder_state) :
  (decode_lines tb max_samples lines st0 = Continue st ->
   sample_count st = sample_count st0 + count_markers lines)
  /\ (decode_lines tb max_samples lines st0 = Break st ->
      max_samples * 10 <= sample_count st
      <= sample_count st0 + count_markers lines).
Proof.
  revert st0; induction lines as [|raw rest IH]; intros st0;
    cbn [decode_lines].
  - split; [intros [= <-]; unfold count_markers; simpl; lia|discriminate].
  - rewrite count_markers_cons.
    pose proof (count_markers_nonneg rest) as Hpos.
    destruct (is_marker raw) eqn:Hm.
    + rewrite (decode_line_marker_eq tb max_samples raw st0 Hm).
      destruct (py_int 10 (tail (strip raw))) as [t|];
        [|split; discriminate].
      destruct (if (sample_count st0 + 1) mod 10 =? 0
                then snapshot (signal_ids tb) (last_values st0)
                       (signal_data st0)
                else Some (signal_data st0)) as [data|];
        [|split; discriminate].
      cbn zeta.
      destruct (Z.leb_spec (max_samples * 10) (sample_count st0 + 1)).
      * split; [discriminate|]. intros [= <-]; cbn [sample_count]; lia.
      * match goal with
        | |- context [decode_lines _ _ rest ?s] =>
            destruct (IH s) as [H1 H2]
        end.
        cbn [sample_count] in H1, H2; split; intros Hrun.
        -- rewrite (H1 Hrun); lia.
        -- specialize (H2 Hrun); lia.
    + destruct (decode_line_event tb max_samples raw st0 Hm)
        as [[Hstep _]|[st1 [Hstep [_ Hcnt]]]]; rewrite Hstep;
        [split; discriminate|].
      destruct (IH st1) as [H1 H2]; split; intros Hrun.
      * rewrite (H1 Hrun); lia.
      * specialize (H2 Hrun); lia.
Qed.

Lemma sample_count_counts_markers_witness :
  sample_count
    {| current_time := 5; sample_count := 2; last_values := [("%", 1)];
       signal_data := [] |}
  = sample_count empty_state + count_markers ["#0"; "b0001 %"; "#5"].
Proof.
  apply (proj1 (@sample_count_counts_markers wide_literal_tables 100000
                  ["#0"; "b0001 %"; "#5"] empty_state
                  {| current_time := 5; sample_count := 2;
                     last_values := [("%", 1)]; signal_data := [] |})).
  reflexivity.
Defined.

(** ** What the sampler appends *)

Lemma snapshot_extends (last : dict Z) (ids : dict string) :
  forall data data' : dict (list Z),
    snapshot ids last data = Some data' ->
    forall name l0,
      get name data = Some l0 ->
      exists ext, get name data' = Some (l0 ++ ext).
Proof.
  induction ids as [|[var_id nm] r IH]; intros data data' Hrun name l0 Hget;
    cbn [snapshot] in Hrun.
  - injection Hrun as <-; exists []; now rewrite app_nil_r.
  - destruct (get var_id last) as [v|]; [|eauto].
    destruct (get nm data) as [l|] eqn:El; [|discriminate].
    destruct (String.eqb_spec nm name) as [->|Hne].
    + rewrite El in Hget; injection Hget as <-.
      destruct (IH _ _ Hrun name (l ++ [v]) (get_set_same _ _ _))
        as [ext Hext].
      exists ([v] ++ ext); now rewrite app_assoc.
    + apply (IH _ _ Hrun); now rewrite get_set_other.
Qed.

(** With one identifier per signal name, a snapshot appends to the
    sequence of a name exactly the last-known value of its identifier,
    and leaves the sequence as it is when the identifier has no value
    yet: samples are values that were decoded, held since their event. *)
Theorem snapshot_appends_last_value (last : dict Z) (ids : dict string)
    (data data' : dict (list Z)) (var_id name : string) (l : list Z) :
  NoDup (values ids) ->
  snapshot ids last data = Some data' ->
  In (var_id, name) ids ->
  get name data = Some l ->
  get name data'
  = Some match get var_id last with
         | Some v => l ++ [v]
         | None => l
         end.
Proof.
  revert data; induction ids as [|[id0 nm] r IH];
    intros data Hnd Hrun Hin Hget; [contradiction|].
  cbn [snapshot] in Hrun; simpl in Hnd.
  apply NoDup_cons_iff in Hnd; destruct Hnd as [Hnm Hr].
  destruct Hin as [[= -> ->]|Hin].
  - destruct (get var_id last) as [v|].
    + rewrite Hget in Hrun.
      destruct (snapshot_lengths _ _ _ Hrun) as [H1 _].
      now rewrite (H1 name Hnm), get_set_same.
    + destruct (snapshot_lengths _ _ _ Hrun) as [H1 _].
      now rewrite (H1 name Hnm).
  - assert (Hne : nm <> name).
    { intros ->; apply Hnm; unfold values.
      change name with (snd (var_id, name)); now apply in_map. }
    destruct (get id0 last) as [v0|]; [|now apply (IH data)].
    destruct (get nm data) as [l0|]; [|discriminate].
    apply (IH _ Hr Hrun Hin); now rewrite get_set_other.
Qed.

Lemma snapshot_appends_last_value_witness :
  get "b" [("a", [7; 1]); ("b", [2])]
  = Some match get "%" [("!", 1)] with
         | Some v => [2] ++ [v]
         | None => [2]
         end.
Proof.
  apply (@snapshot_appends_last_value [("!", 1)] [("!", "a"); ("%", "b")]
           [("a", [7]); ("b", [2])] [("a", [7; 1]); ("b", [2])] "%" "b" [2]).
  - repeat constructor; simpl; intuition discriminate.
  - reflexivity.
  - right; now left.
  - reflexivity.
Defined.

Lemma decode_line_last_values (tb : header_tables) (max_samples : Z)
    (raw : string) (st st' : decoder_state) :
  decode_line tb max_samples raw st = Continue st'
  \/ decode_line tb max_samples raw st = Break st' ->
  last_values st' = last_values st
  \/ exists var_id v, last_values st' = set var_id v (last_values st).
Proof.
  unfold decode_line.
  destruct (startswith "#" (strip raw)).
  - destruct (py_int 10 _); [|intros [H|H]; discriminate].
    destruct (if _ =? 0 then _ else _); [|intros [H|H]; discriminate].
    cbn zeta; destruct (_ <=? _); intros [[= <-]|[= <-]]; now left.
  - destruct (startswith "b" (strip raw)).
    + destruct (_ =? 2)%nat; [|intros [[= <-]|H]; [now left|discriminate]].
      destruct (get _ (signal_ids tb));
        [|intros [[= <-]|H]; [now left|discriminate]].
      destruct (py_int 2 _); [|intros [[= <-]|H]; [now left|discriminate]].
      destruct (twos_complement _ _ _); [|intros [H|H]; discriminate].
      intros [[= <-]|H]; [right; simpl; eauto|discriminate].
    + destruct (strip raw) as [|val_char [|c r]];
        try (intros [[= <-]|H]; [now left|discriminate]).
      destruct (in_set _ _); [|intros [[= <-]|H]; [now left|discriminate]].
      destruct (mem _ _); [|intros [[= <-]|H]; [now left|discriminate]].
      destruct (Ascii.eqb val_char "1");
        [intros [[= <-]|H]; [right; simpl; eauto|discriminate]|].
      destruct (Ascii.eqb val_char "0");
        intros [[= <-]|H]; try discriminate;
        [right; simpl; eauto|now left].
Qed.

Lemma decode_line_extends (tb : header_tables) (max_samples : Z)
    (raw : string) (st st' : decoder_state) :
  decode_line tb max_samples raw st = Continue st'
  \/ decode_line tb max_samples raw st = Break st' ->
  forall name l0,
    get name (signal_data st) = Some l0 ->
    exists ext, get name (signal_data st') = Some (l0 ++ ext).
Proof.
  intros Hrun name l0 Hget.
  destruct (is_marker raw) eqn:Hm.
  - rewrite (decode_line_marker_eq tb max_samples raw st Hm) in Hrun.
    destruct (py_int 10 _); [|destruct Hrun; discriminate].
    destruct (Z.eqb ((sample_count st + 1) mod 10) 0).
    + destruct (snapshot _ _ _) as [data|] eqn:Hs;
        [|destruct Hrun; discriminate].
      destruct (snapshot_extends _ _ _ Hs name Hget) as [ext Hext].
      exists ext; cbn zeta in Hrun.
      destruct (_ <=? _); destruct Hrun as [[= <-]|[= <-]]; exact Hext.
    + exists []; rewrite app_nil_r; cbn zeta in Hrun.
      destruct (_ <=? _); destruct Hrun as [[= <-]|[= <-]]; exact Hget.
  - destruct (decode_line_event tb max_samples raw st Hm)
      as [[Hstep _]|[st1 [Hstep [Hdata _]]]];
      rewrite Hstep in Hrun; destruct Hrun as [H|H]; try discriminate.
    injection H as <-; exists []; now rewrite app_nil_r, Hdata.
Qed.

(** The extracted series only grow: whatever lines are decoded, the
    sequence a name had before is a prefix of the one it has after, and
    an identifier that had a last-known value still has one. *)
Theorem sequences_only_grow (tb : header_tables) (max_samples : Z)
    (lines : list string) (st0 st : decoder_state) :
  decode_lines tb max_samples lines st0 = Continue st
  \/ decode_lines tb max_samples lines st0 = Break st ->
  (forall name l0,
      get name (signal_data st0) = Some l0 ->
      exists ext, get name (signal_data st) = Some (l0 ++ ext))
  /\ (forall var_id,
        mem var_id (last_values st0) = true ->
        mem var_id (last_values st) = true).
Proof.
  revert st0; induction lines as [|raw rest IH]; intros st0 Hrun;
    cbn [decode_lines] in Hrun.
  - destruct Hrun as [[= <-]|H]; [|discriminate]; split; [|auto].
    intros name l0 H; exists []; now rewrite app_nil_r.
  - assert (Hmem : forall st1,
               decode_line tb max_samples raw st0 = Continue st1
               \/ decode_line tb max_samples raw st0 = Break st1 ->
               forall var_id,
                 mem var_id (last_values st0) = true ->
                 mem var_id (last_values st1) = true).
    { intros st1 H1 var_id Hm.
      destruct (decode_line_last_values _ _ _ _ H1) as [->|[x [v ->]]];
        [exact Hm|].
      unfold mem in *; rewrite get_set.
      now destruct (String.eqb x var_id). }
    destruct (decode_line tb max_samples raw st0) as [st1|st1|e|] eqn:E;
      try (destruct Hrun; discriminate).
    + destruct (IH st1 Hrun) as [H1 H2]; split.
      * intros name l0 Hget.
        destruct (@decode_line_extends tb max_samples raw st0 st1
                    (or_introl E) name l0 Hget) as [e1 He1].
        destruct (H1 name _ He1) as [e2 He2].
        exists (e1 ++ e2); now rewrite app_assoc.
      * intros var_id Hm; apply H2, (Hmem st1); auto.
    + destruct Hrun as [H|[= <-]]; [discriminate|]; split.
      * now apply (@decode_line_extends tb max_samples raw st0 st1);
          right.
      * apply (Hmem st1); auto.
Qed.

Lemma sequences_only_grow_witness :
  (forall name l0,
      get name [("theta_x", [3])] = Some l0 ->
      exists ext, get name [("theta_x", [3; 7])] = Some (l0 ++ ext))
  /\ (forall var_id,
        mem var_id ([] : dict Z) = true -> mem var_id [("%", 7)] = true).
Proof.
  apply (@sequences_only_grow wide_literal_tables 100000
           ["b0111 %"; "#0"]
           {| current_time := 0; sample_count := 9; last_values := [];
              signal_data := [("theta_x", [3])] |}
           {| current_time := 0; sample_count := 10;
              last_values := [("%", 7)];
              signal_data := [("theta_x", [3; 7])] |}).
  left; reflexivity.
Defined.

(** ** The result of the extraction *)

Lemma NoDup_keys_filter {V : Type} (p : string * V -> bool) (d : dict V) :
  NoDup (keys d) -> NoDup (keys (filter p d)).
Proof.
  unfold keys; induction d as [|kv r IH]; simpl; [auto|].
  intros Hnd; apply NoDup_cons_iff in Hnd; destruct Hnd as [Hk Hr].
  destruct (p kv); simpl; [|auto].
  constructor; [|auto].
  intros Hin; apply Hk; apply in_map_iff in Hin.
  destruct Hin as [x [E Hx]]; apply filter_In in Hx.
  rewrite <- E; apply in_map; tauto.
Qed.

(** When the extraction returns, its result is the non-empty sequences
    of the state in which the second loop ended; the names of the
    sequences are those set up before the loop, without repetition. *)
Lemma parse_ok_state (vcd_file signals_of_interest : list string)
    (max_samples : Z) (res : dict (list Z)) :
  parse_vcd_lightweight vcd_file signals_of_interest max_samples = Ok res ->
  exists st,
    (decode_lines (header_pass signals_of_interest vcd_file empty_tables)
       max_samples vcd_file
       (initial_state signals_of_interest
          (header_pass signals_of_interest vcd_file empty_tables))
     = Continue st
     \/ decode_lines (header_pass signals_of_interest vcd_file empty_tables)
          max_samples vcd_file
          (initial_state signals_of_interest
             (header_pass signals_of_interest vcd_file empty_tables))
        = Break st)
    /\ res = nonempty_series (signal_data st)
    /\ keys (signal_data st)
       = keys (init_signal_data signals_of_interest
                 (signal_ids
                    (header_pass signals_of_interest vcd_file empty_tables))
                 [])
    /\ NoDup (keys (signal_data st)).
Proof.
  set (tb := header_pass signals_of_interest vcd_file empty_tables).
  intros Hparse.
  pose proof (init_signal_data_spec (signal_ids tb) signals_of_interest [])
    as [Hi1 [Hi2 Hi3]]; cbn zeta in Hi1, Hi2, Hi3.
  assert (Hwf : forall var_id nm,
             In (var_id, nm) (signal_ids tb) ->
             In nm (keys (signal_data
                            (initial_state signals_of_interest tb)))).
  { intros var_id nm Hx; simpl; apply Hi2; right; split.
    - eapply header_ids_wanted; exact Hx.
    - unfold values; change nm with (snd (var_id, nm)); now apply in_map. }
  assert (Hkeys : NoDup (keys (signal_ids tb))).
  { unfold tb; rewrite header_pass_fold; apply fold_record_NoDup.
    constructor. }
  unfold parse_vcd_lightweight in Hparse; fold tb in Hparse.
  destruct (@decode_lines_records tb max_samples Hkeys vcd_file
              (initial_state signals_of_interest tb) Hwf)
    as [[[Hrun|Hrun] _]|[st [Hrun (Hk & _)]]];
    try (rewrite Hrun in Hparse; discriminate).
  exists st; split; [exact Hrun|split; [|split]].
  - destruct Hrun as [Hrun|Hrun]; rewrite Hrun in Hparse;
      now injection Hparse.
  - exact Hk.
  - rewrite Hk; apply Hi1; constructor.
Qed.

(** What the result can hold: no name twice, no empty sequence, and
    only wanted names that the header resolved to an identifier.  A
    wanted signal that the trace does not declare is absent from the
    result; it is not an error. *)
Theorem result_holds_resolved_names
    (vcd_file signals_of_interest : list string) (max_samples : Z)
    (res : dict (list Z)) :
  parse_vcd_lightweight vcd_file signals_of_interest max_samples = Ok res ->
  NoDup (keys res)
  /\ (forall name l,
        In (name, l) res ->
        l <> []
        /\ In name signals_of_interest
        /\ exists var_id,
             get var_id
               (signal_ids
                  (header_pass signals_of_interest vcd_file empty_tables))
             = Some name).
Proof.
  intros Hparse.
  destruct (parse_ok_state _ _ _ Hparse) as [st (_ & -> & Hk & Hnd)].
  split; [now apply NoDup_keys_filter|].
  intros name l Hin; unfold nonempty_series in Hin.
  apply filter_In in Hin; destruct Hin as [Hin Hl]; simpl in Hl.
  split; [intros ->; discriminate|].
  assert (Hkey : In name (keys (signal_data st))).
  { unfold keys; change name with (fst (name, l)); now apply in_map. }
  rewrite Hk in Hkey.
  apply (init_signal_data_spec _ signals_of_interest []) in Hkey.
  destruct Hkey as [[]|[Hw Hv]]; split; [exact Hw|].
  unfold values in Hv; apply in_map_iff in Hv.
  destruct Hv as [[var_id nm] [E Hx]]; simpl in E; subst nm.
  exists var_id; apply In_get; [|exact Hx].
  rewrite header_pass_fold; apply fold_record_NoDup; constructor.
Qed.

Lemma result_holds_resolved_names_witness :
  NoDup (keys [("state_select", [10]); ("b", [-6])])
  /\ (forall name l,
        In (name, l) [("state_select", [10]); ("b", [-6])] ->
        l <> []
        /\ In name ["missing"; "state_select"; "b"]
        /\ exists var_id,
             get var_id
               (signal_ids
                  (header_pass ["missing"; "state_select"; "b"]
                     (ten_marker_trace "state_select" "b") empty_tables))
             = Some name).
Proof.
  apply (@result_holds_resolved_names
           (ten_marker_trace "state_select" "b")
           ["missing"; "state_select"; "b"] 100000
           [("state_select", [10]); ("b", [-6])]).
  reflexivity.
Defined.

Lemma decode_lines_no_budget (tb : header_tables) (max_samples : Z)
    (lines : list string) :
  max_samples <= 0 ->
  forall st0 st,
    sample_count st0 = 0 ->
    decode_lines tb max_samples lines st0 = Continue st
    \/ decode_lines tb max_samples lines st0 = Break st ->
    signal_data st = signal_data st0.
Proof.
  intros Hmax; induction lines as [|raw rest IH]; intros st0 st H0 Hrun;
    cbn [decode_lines] in Hrun.
  - destruct Hrun as [[= <-]|H]; [reflexivity|discriminate].
  - destruct (is_marker raw) eqn:Hm.
    + rewrite (decode_line_marker_eq tb max_samples raw st0 Hm) in Hrun.
      destruct (py_int 10 _); [|destruct Hrun; discriminate].
      rewrite H0 in Hrun; change ((0 + 1) mod 10 =? 0) with false in Hrun.
      cbn zeta in Hrun.
      destruct (Z.leb_spec (max_samples * 10) (0 + 1)) as [_|Hlt]; [|lia].
      destruct Hrun as [H|[= <-]]; [discriminate|reflexivity].
    + destruct (decode_line_event tb max_samples raw st0 Hm)
        as [[Hstep _]|[st1 [Hstep [Hdata Hcnt]]]];
        rewrite Hstep in Hrun; [destruct Hrun; discriminate|].
      rewrite <- Hdata; apply IH; [congruence|exact Hrun].
Qed.

(** With a sample budget of zero, or a negative one, the loop stops at
    the first timestamp marker and no snapshot is ever taken: whenever
    the extraction returns, its result is the empty mapping. *)
Theorem no_budget_no_samples
    (vcd_file signals_of_interest : list string) (max_samples : Z)
    (res : dict (list Z)) :
  max_samples <= 0 ->
  parse_vcd_lightweight vcd_file signals_of_interest max_samples = Ok res ->
  res = [].
Proof.
  intros Hmax Hparse.
  destruct (parse_ok_state _ _ _ Hparse) as [st (Hrun & -> & _)].
  rewrite (@decode_lines_no_budget _ max_samples vcd_file Hmax
             (initial_state signals_of_interest
                (header_pass signals_of_interest vcd_file empty_tables))
             st eq_refl Hrun).
  apply nonempty_series_empty; simpl.
  apply (init_signal_data_spec _ signals_of_interest []); constructor.
Qed.

Lemma no_budget_no_samples_witness :
  parse_vcd_lightweight (ten_marker_trace "state_select" "b")
    ["state_select"; "b"] 0 = Ok []
  /\ @nil (string * list Z) = [].
Proof.
  split; [reflexivity|].
  apply (@no_budget_no_samples (ten_marker_trace "state_select" "b")
           ["state_select"; "b"] 0 []); [lia|reflexivity].
Defined.

(** ** Reconciler and segmenter together *)

Lemma get_map_values {A B : Type} (f : A -> B) (d : dict A) (k : string) :
  get k (map (fun kv => (fst kv, f (snd kv))) d) = option_map f (get k d).
Proof.
  induction d as [|[k' v] r IH]; simpl; [reflexivity|].
  now destruct (String.eqb k' k).
Qed.

Section ByStateFacts.

Variable linspace_int : nat -> nat -> list nat.
Hypothesis linspace_length :
  forall n num, List.length (linspace_int n num) = num.
Hypothesis linspace_range :
  forall n num i, (0 < n)%nat -> In i (linspace_int n num) -> (i < n)%nat.

(** Reconciliation makes the series fit for the segmenter: whatever the
    extracted series, splitting them by state returns a result.  The
    boolean masks always have the length of the sequences they select
    from, so no [IndexError] arises; [parse_vcd_by_state] raises only
    when the extraction itself does. *)
Theorem split_by_state_returns (data : dict (list Z)) :
  exists segs, split_by_state linspace_int data = Ok segs.
Proof.
  unfold split_by_state.
  destruct (mem "state_select" data) eqn:Hm; cbn [negb]; [|now eexists].
  assert (Hne : data <> []) by (intros ->; discriminate).
  destruct (min_len_spec Hne) as [L [Hmin [Hle _]]].
  unfold reconcile_lengths.
  rewrite Hmin, (resample_all_closed linspace_int linspace_range).
  unfold mem in Hm.
  destruct (get "state_select" data) as [key|] eqn:Hkey; [|discriminate].
  set (data' := map (fun kv => (fst kv, resampled_with linspace_int L (snd kv)))
                  data).
  assert (Hkey' : get "state_select" data'
                  = Some (resampled_with linspace_int L key)).
  { unfold data'; now rewrite get_map_values, Hkey. }
  assert (Hlen : forall sig arr,
             In (sig, arr) data' ->
             List.length arr
             = List.length (resampled_with linspace_int L key)).
  { intros sig arr Hin; unfold data' in Hin; apply in_map_iff in Hin.
    destruct Hin as [[k a] [[= <- <-] Hin]]; cbn [snd].
    rewrite !(resampled_length linspace_int linspace_length); eauto.
    apply get_In in Hkey; eauto. }
  assert (Hnames : NoDup state_names).
  { unfold state_names; repeat constructor; simpl; intuition discriminate. }
  destruct (@segment_loop_get data' _ Hlen state_names 0 [] Hnames)
    as [segs [Hrun _]].
  exists segs; unfold segment_states; now rewrite Hkey', Hrun.
Qed.

End ByStateFacts.

Lemma split_by_state_returns_witness :
  exists segs,
    split_by_state linspace_exact
      [("theta_x", [1; 2; 3; 4; 5]); ("state_select", [0; 7; 1; 1])]
    = Ok segs.
Proof.
  apply (@split_by_state_returns linspace_exact linspace_exact_length
           linspace_exact_range).
Defined.

(** ** The segments *)

Lemma mask_rows_length (key : list Z) (state_idx : Z) (start : nat) :
  List.length (mask_rows start (eq_mask key state_idx))
  = count_occ Z.eq_dec key state_idx.
Proof.
  revert start; induction key as [|v r IH]; intros start; simpl;
    [reflexivity|].
  destruct (Z.eqb_spec v state_idx) as [E|E];
    destruct (Z.eq_dec v state_idx) as [E'|E']; try contradiction;
    simpl; now rewrite IH.
Qed.

(** A segment is never empty and never holds the partition key.  For
    an aligned series, the segment of a label holds, under every signal
    name but [state_select], exactly as many values as there are rows
    with that label, and there is at least one; rows whose key value is
    none of the labels 0..4 are in no segment. *)
Theorem segments_hold_their_rows (data : dict (list Z)) (key : list Z)
    (segs : dict (dict (list Z))) (name : string) (seg : dict (list Z)) :
  get "state_select" data = Some key ->
  (forall sig arr, In (sig, arr) data -> List.length arr = List.length key) ->
  segment_states data = Ok segs ->
  get name segs = Some seg ->
  exists idx,
    nth_error state_names idx = Some name
    /\ (1 <= count_occ Z.eq_dec key (Z.of_nat idx))%nat
    /\ (forall sig vals,
          In (sig, vals) seg ->
          sig <> "state_select"
          /\ List.length vals = count_occ Z.eq_dec key (Z.of_nat idx)).
Proof.
  intros Hkey Hal Hrun Hget.
  assert (Hnames : NoDup state_names).
  { unfold state_names; repeat constructor; simpl; intuition discriminate. }
  destruct (@segment_loop_get data key Hal state_names 0 [] Hnames)
    as [segs' [Hrun' [Hout [Hin _]]]].
  unfold segment_states in Hrun; rewrite Hkey, Hrun' in Hrun.
  injection Hrun as <-.
  destruct (in_dec string_dec name state_names) as [Hi|Hni];
    [|rewrite (Hout name Hni) in Hget; discriminate].
  apply In_nth_error in Hi; destruct Hi as [idx Hidx].
  rewrite (Hin idx name Hidx) in Hget; simpl in Hget.
  destruct (occurs key (Z.of_nat idx)) eqn:Hocc; [|discriminate].
  injection Hget as <-; exists idx; split; [exact Hidx|split].
  - apply occurs_In in Hocc.
    apply (count_occ_In Z.eq_dec) in Hocc; lia.
  - intros sig vals Hsv; unfold segment_of in Hsv.
    apply in_map_iff in Hsv; destruct Hsv as [[k arr] [[= <- <-] Hf]].
    apply filter_In in Hf; destruct Hf as [_ Hk]; cbn [fst snd] in *.
    split.
    + intros ->; discriminate.
    + unfold at_rows, rows_of; now rewrite length_map, mask_rows_length.
Qed.

Lemma segments_hold_their_rows_witness :
  exists idx,
    nth_error state_names idx = Some "FLOW"
    /\ (1 <= count_occ Z.eq_dec [0; 9; 3; 3; 0; 3]%Z (Z.of_nat idx))%nat
    /\ (forall sig vals,
          In (sig, vals) [("theta_x", [12; 13; 15])] ->
          sig <> "state_select"
          /\ List.length vals
             = count_occ Z.eq_dec [0; 9; 3; 3; 0; 3] (Z.of_nat idx)).
Proof.
  apply (@segments_hold_their_rows
           [("theta_x", [10; 11; 12; 13; 14; 15]);
            ("state_select", [0; 9; 3; 3; 0; 3])]
           [0; 9; 3; 3; 0; 3]
           [("NORMAL", [("theta_x", [10; 14])]);
            ("FLOW", [("theta_x", [12; 13; 15])])]
           "FLOW" [("theta_x", [12; 13; 15])]).
  - reflexivity.
  - intros sig arr [[= <- <-]|[[= <- <-]|[]]]; reflexivity.
  - reflexivity.
  - reflexivity.
Defined.

(** ** Binary literals and two's complement *)

Lemma twos_complement_pattern (val bits : Z) :
  1 <= bits ->
  0 <= val < 2 ^ bits ->
  exists x,
    twos_complement val bits true = Some x
    /\ x mod 2 ^ bits = val
    /\ (x < 0 <-> Z.testbit val (bits - 1) = true).
Proof.
  intros Hb Hv.
  assert (Hp : 2 ^ bits = 2 * 2 ^ (bits - 1)).
  { replace bits with (Z.succ (bits - 1)) at 1 by lia.
    apply Z.pow_succ_r; lia. }
  assert (Hpos : 0 < 2 ^ (bits - 1)) by (apply Z.pow_pos_nonneg; lia).
  unfold twos_complement; cbn [negb].
  destruct (bits <? 0) eqn:E1; [apply Z.ltb_lt in E1; lia|].
  destruct (bits =? 0) eqn:E2; [apply Z.eqb_eq in E2; lia|].
  destruct (Z.leb_spec (2 ^ (bits - 1)) val) as [Hge|Hlt].
  - exists (val - 2 ^ bits); split; [reflexivity|split].
    + symmetry; apply Z.mod_unique with (q := -1); lia.
    + assert (Hq : val / 2 ^ (bits - 1) = 1).
      { symmetry; apply Z.div_unique with (r := val - 2 ^ (bits - 1)); lia. }
      rewrite Z.testbit_true, Hq by lia; split; [reflexivity|lia].
  - exists val; split; [reflexivity|split].
    + apply Z.mod_small; lia.
    + rewrite Z.testbit_true, Z.div_small by lia; split; [lia|discriminate].
Qed.

(** Two's complement, as the code applies it to a [bits]-bit pattern:
    the signed value is negative exactly when the top bit of the
    pattern is set, and it writes back to the same pattern (it is the
    pattern modulo [2^bits]). *)
Theorem twos_complement_round_trip (val bits : Z) :
  1 <= bits ->
  0 <= val < 2 ^ bits ->
  exists x,
    twos_complement val bits true = Some x
    /\ x mod 2 ^ bits = val
    /\ (x < 0 <-> Z.testbit val (bits - 1) = true).
Proof. exact (@twos_complement_pattern val bits). Qed.

Lemma twos_complement_round_trip_witness :
  exists x,
    twos_complement 10 4 true = Some x
    /\ x mod 2 ^ 4 = 10
    /\ (x < 0 <-> Z.testbit 10 (4 - 1) = true).
Proof.
  apply (@twos_complement_round_trip 10 4); lia.
Defined.

Lemma binary_value_bounds (s : string) (acc : Z) :
  0 <= acc ->
  acc * 2 ^ Z.of_nat (String.length s)
  <= binary_value acc s
  < (acc + 1) * 2 ^ Z.of_nat (String.length s).
Proof.
  revert acc; induction s as [|c r IH]; intros acc Hacc.
  - simpl; lia.
  - cbn [binary_value String.length].
    rewrite Nat2Z.inj_succ, Z.pow_succ_r by lia.
    assert (Hp : 0 < 2 ^ Z.of_nat (String.length r))
      by (apply Z.pow_pos_nonneg; lia).
    destruct (Ascii.eqb c "1").
    + specialize (IH (2 * acc + 1) ltac:(lia)); nia.
    + specialize (IH (2 * acc + 0) ltac:(lia)); nia.
Qed.

Lemma scan_digits_binary (s : string) (acc : Z) (consumed : bool) :
  all_binary s = true ->
  scan_digits 2 false consumed acc s
  = Some (binary_value acc s,
          match s with EmptyString => consumed | _ => true end,
          EmptyString).
Proof.
  revert acc consumed; induction s as [|c r IH]; intros acc consumed Hs;
    [reflexivity|].
  cbn [all_binary] in Hs; apply andb_prop in Hs; destruct Hs as [Hc Hr].
  cbn [scan_digits binary_value].
  destruct (Ascii.eqb_spec c "0") as [->|H0].
  - change (Ascii.eqb "0" "_") with false.
    change (digit_value "0" <? 2)%nat with true.
    change (Ascii.eqb "0" "1") with false; cbn iota.
    rewrite (IH _ true Hr).
    change (Z.of_nat (digit_value "0")) with 0.
    replace (acc * Z.of_nat 2 + 0) with (2 * acc + 0) by lia.
    now destruct r.
  - destruct (Ascii.eqb_spec c "1") as [->|H1]; [|discriminate].
    change (Ascii.eqb "1" "_") with false.
    change (digit_value "1" <? 2)%nat with true; cbn iota.
    rewrite (IH _ true Hr).
    change (Z.of_nat (digit_value "1")) with 1.
    replace (acc * Z.of_nat 2 + 1) with (2 * acc + 1) by lia.
    now destruct r.
Qed.

(** [int(s, 2)] on a non-empty string of binary digits: the number the
    digits write. *)
Lemma py_int_binary (s : string) :
  all_binary s = true ->
  s <> EmptyString ->
  py_int 2 s = Some (binary_value 0 s).
Proof.
  intros Hs Hne; destruct s as [|c r]; [contradiction|].
  pose proof Hs as Hs'.
  cbn [all_binary] in Hs; apply andb_prop in Hs; destruct Hs as [Hc Hr].
  unfold py_int.
  destruct (Ascii.eqb_spec c "0") as [->|H0].
  - change (skip_c_space (String "0" r)) with (String "0" r); cbn iota beta.
    change (2 =? 2)%nat with true; cbn iota.
    assert (Hpre : match r with
                   | String c0 r0 =>
                       if Ascii.eqb c0 "b" || Ascii.eqb c0 "B"
                       then match r0 with
                            | String "_" r' => r'
                            | _ => r0
                            end
                       else String "0" r
                   | EmptyString => String "0" r
                   end = String "0" r).
    { destruct r as [|c0 r0]; [reflexivity|].
      cbn [all_binary] in Hr; apply andb_prop in Hr; destruct Hr as [Hc0 _].
      destruct (Ascii.eqb_spec c0 "0") as [->|]; [reflexivity|].
      destruct (Ascii.eqb_spec c0 "1") as [->|]; [reflexivity|discriminate]. }
    rewrite Hpre, (scan_digits_binary _ 0 false Hs'); reflexivity.
  - destruct (Ascii.eqb_spec c "1") as [->|H1]; [|discriminate].
    change (skip_c_space (String "1" r)) with (String "1" r); cbn iota beta.
    change (2 =? 2)%nat with true; cbn iota.
    rewrite (scan_digits_binary _ 0 false Hs'); reflexivity.
Qed.

(** A vector event whose literal is made of binary digits, no more of
    them than the declared width: the literal is accepted, and the
    value stored writes back to the digits of the literal (it is their
    number modulo [2^w]); for a signal of the unsigned set it is that
    number itself, for the others it lies in [-2^(w-1), 2^(w-1)). *)
Theorem binary_literal_decoded (tb : header_tables) (max_samples : Z)
    (raw digits var_id sig_name : string) (st : decoder_state) (w : Z) :
  startswith "b" (strip raw) = true ->
  split_ws (strip raw) = [String "b" digits; var_id] ->
  all_binary digits = true ->
  digits <> EmptyString ->
  Z.of_nat (String.length digits) <= w ->
  get var_id (signal_ids tb) = Some sig_name ->
  get var_id (signal_widths tb) = Some w ->
  exists x,
    decode_line tb max_samples raw st
    = Continue (with_last_values st (set var_id x (last_values st)))
    /\ x mod 2 ^ w = binary_value 0 digits
    /\ (in_set sig_name UNSIGNED_SIGNALS = true ->
        x = binary_value 0 digits)
    /\ (in_set sig_name UNSIGNED_SIGNALS = false ->
        - 2 ^ (w - 1) <= x < 2 ^ (w - 1)).
Proof.
  intros Hb Hparts Hbin Hne Hlen Hid Hw.
  pose proof (@binary_value_bounds digits 0 ltac:(lia)) as Hv.
  assert (H1 : 1 <= w) by (destruct digits; [contradiction|simpl in Hlen; lia]).
  assert (Hpow : 2 ^ Z.of_nat (String.length digits) <= 2 ^ w)
    by (apply Z.pow_le_mono_r; lia).
  assert (Hr : 0 <= binary_value 0 digits < 2 ^ w) by lia.
  unfold decode_line.
  rewrite (startswith_b_not_marker _ Hb), Hb, Hparts.
  cbn [List.length Nat.eqb nth tail]; rewrite Hid, Hw.
  rewrite (@py_int_binary digits Hbin Hne).
  destruct (in_set sig_name UNSIGNED_SIGNALS); cbn [negb].
  - rewrite twos_complement_unsigned.
    exists (binary_value 0 digits); repeat split; try discriminate.
    apply Z.mod_small; exact Hr.
  - destruct (twos_complement_pattern H1 Hr) as [x [Hx [Hmod _]]].
    destruct (twos_complement_signed_range H1 Hr) as [x' [Hx' Hrange]].
    rewrite Hx' in Hx; injection Hx as ->.
    rewrite Hx'; exists x; repeat split; try discriminate; try lia.
Qed.

Lemma binary_literal_decoded_witness :
  exists x,
    decode_line wide_literal_tables 100000 "b110 %" empty_state
    = Continue (with_last_values empty_state (set "%" x []))
    /\ x mod 2 ^ 4 = binary_value 0 "110"
    /\ (in_set "theta_x" UNSIGNED_SIGNALS = true ->
        x = binary_value 0 "110")
    /\ (in_set "theta_x" UNSIGNED_SIGNALS = false ->
        - 2 ^ (4 - 1) <= x < 2 ^ (4 - 1)).
Proof.
  apply (@binary_literal_decoded wide_literal_tables 100000
           "b110 %" "110" "%" "theta_x" empty_state 4);
    try reflexivity; [discriminate|simpl; lia].
Defined.

Lemma binary_value_zeros (n : nat) (acc : Z) :
  binary_value acc (zeros n) = acc * 2 ^ Z.of_nat n.
Proof.
  revert acc; induction n as [|n IH]; intros acc.
  - simpl; lia.
  - cbn [zeros binary_value].
    change (Ascii.eqb "0" "1") with false; cbn iota.
    rewrite IH, Nat2Z.inj_succ, Z.pow_succ_r by lia; lia.
Qed.

Lemma all_binary_zeros (n : nat) : all_binary (zeros n) = true.
Proof. induction n as [|n IH]; [reflexivity|exact IH]. Qed.

(** The most negative value of every width: the literal 1 followed by
    [n] zeros reads as [2^n], which as a signed value of [n + 1] bits
    is [-2^n] (for 18 bits, [-2^17]), and as an unsigned one [2^n]. *)
Theorem top_bit_literal (n : nat) :
  py_int 2 (String "1" (zeros n)) = Some (2 ^ Z.of_nat n)
  /\ twos_complement (2 ^ Z.of_nat n) (Z.of_nat n + 1) true
     = Some (- 2 ^ Z.of_nat n)
  /\ twos_complement (2 ^ Z.of_nat n) (Z.of_nat n + 1) false
     = Some (2 ^ Z.of_nat n).
Proof.
  assert (Hp : 0 < 2 ^ Z.of_nat n) by (apply Z.pow_pos_nonneg; lia).
  split; [|split; [|reflexivity]].
  - rewrite py_int_binary; [|apply (all_binary_zeros n)|discriminate].
    cbn [binary_value]; change (Ascii.eqb "1" "1") with true; cbn iota.
    rewrite binary_value_zeros; f_equal; lia.
  - unfold twos_complement; cbn [negb].
    destruct (Z.ltb_spec (Z.of_nat n + 1) 0); [lia|].
    destruct (Z.eqb_spec (Z.of_nat n + 1) 0); [lia|].
    replace (Z.of_nat n + 1 - 1) with (Z.of_nat n) by lia.
    rewrite Z.leb_refl, Z.pow_add_r by lia.
    f_equal; lia.
Qed.

(** ** What the header resolver records *)

Lemma declaration_needs_var (signals_of_interest : list string)
    (line : string) :
  startswith "$var" line = false ->
  declaration signals_of_interest line = None.
Proof.
  intros H; unfold declaration; now rewrite H.
Qed.

(** The declarations are looked for at the very start of the lines,
    which are not stripped in the first loop.  When no line of the
    header section starts with [$var] in its first column (a header
    whose declarations are indented, for one), no signal is tracked:
    the result of the extraction, whenever it returns, is the empty
    mapping, and no error is raised for it. *)
Theorem no_declaration_no_signal
    (vcd_file signals_of_interest : list string) (max_samples : Z)
    (res : dict (list Z)) :
  Forall (fun line => startswith "$var" line = false)
    (header_section vcd_file) ->
  parse_vcd_lightweight vcd_file signals_of_interest max_samples = Ok res ->
  res = [].
Proof.
  intros Hall Hparse.
  assert (Hd : declarations signals_of_interest vcd_file = []).
  { unfold declarations.
    induction Hall as [|line rest Hline _ IH]; [reflexivity|].
    cbn [flat_map]; now rewrite (declaration_needs_var _ _ Hline), IH. }
  destruct (parse_ok_state _ _ _ Hparse) as [st (_ & -> & Hk & _)].
  rewrite header_pass_fold, Hd in Hk; cbn [fold_left] in Hk.
  assert (Hinit : init_signal_data signals_of_interest
                    (signal_ids empty_tables) [] = []).
  { clear; induction signals_of_interest as [|sig r IH];
      [reflexivity|exact IH]. }
  rewrite Hinit in Hk; unfold keys in Hk.
  destruct (signal_data st); [reflexivity|discriminate].
Qed.

Lemma no_declaration_no_signal_witness :
  parse_vcd_lightweight
    ["$scope module tb $end"; "  $var wire 4 ! theta_x [3:0] $end";
     "$upscope $end"; "$enddefinitions $end"; "b0111 !";
     "#0"; "#1"; "#2"; "#3"; "#4"; "#5"; "#6"; "#7"; "#8"; "#9"]
    ["theta_x"] 100000 = Ok []
  /\ @nil (string * list Z) = [].
Proof.
  split; [reflexivity|].
  apply (@no_declaration_no_signal
           ["$scope module tb $end"; "  $var wire 4 ! theta_x [3:0] $end";
            "$upscope $end"; "$enddefinitions $end"; "b0111 !";
            "#0"; "#1"; "#2"; "#3"; "#4"; "#5"; "#6"; "#7"; "#8"; "#9"]
           ["theta_x"] 100000 []); [|reflexivity].
  repeat constructor.
Defined.

Lemma split_ws_join (tokens : list string) :
  Forall (fun t => is_token t = true) tokens ->
  split_ws (join_spaces tokens) = tokens.
Proof.
  induction 1 as [|t r Ht Hr IH]; [reflexivity|].
  cbn [join_spaces]; destruct r as [|t' r'].
  - now apply split_ws_token.
  - now rewrite (@split_ws_token_space t _ Ht), IH.
Qed.

Lemma no_space_app (a b : string) :
  no_space (a ++ b) = no_space a && no_space b.
Proof.
  induction a as [|c a IH]; [reflexivity|].
  cbn [append no_space]; now rewrite IH, andb_assoc.
Qed.

Lemma find_name (name : string) (l : list string) :
  In name l -> find (fun sig => String.eqb sig name) l = Some name.
Proof.
  induction l as [|x l IH]; [contradiction|].
  intros Hin; cbn [find].
  destruct (String.eqb_spec x name) as [->|Hne]; [reflexivity|].
  destruct Hin as [->|Hin]; [contradiction|auto].
Qed.

(** A declaration line in the form of the format: [$var], a kind among
    wire, reg and integer, an integer width, the identifier, the name
    (with its range attached, as in [sig[7:0]], or as a token of its
    own, as in [sig [7:0]], or without any) and whatever tokens follow.
    When the name is a wanted one, the loop body records it: the
    identifier maps to the base name and to the width. *)
Theorem declaration_line_recorded (signals_of_interest : list string)
    (kind width_text var_id name suffix : string) (rest : list string)
    (width : Z) (tb : header_tables) :
  in_set kind ["wire"; "reg"; "integer"] = true ->
  py_int 10 width_text = Some width ->
  is_token width_text = true ->
  is_token var_id = true ->
  is_token name = true ->
  no_bracket name = true ->
  suffix = EmptyString
  \/ (startswith "[" suffix = true /\ no_space suffix = true) ->
  Forall (fun t => is_token t = true) rest ->
  In name signals_of_interest ->
  header_line signals_of_interest
    (join_spaces
       ("$var" :: kind :: width_text :: var_id
        :: (name ++ suffix)%string :: rest))
    tb
  = {| signal_ids := set var_id name (signal_ids tb);
       signal_widths := set var_id width (signal_widths tb) |}.
Proof.
  intros Hkind Hint Hwt Hid Hname Hnb Hsuf Hrest Hwanted.
  assert (Hk : is_token kind = true).
  { unfold in_set in Hkind; cbn [existsb] in Hkind.
    repeat (apply orb_prop in Hkind; destruct Hkind as [Hkind|Hkind]);
      try discriminate; apply String.eqb_eq in Hkind; now subst. }
  assert (Hns : is_token (name ++ suffix) = true).
  { unfold is_token in *; apply andb_prop in Hname.
    destruct Hname as [Hne Hsp]; rewrite no_space_app, Hsp.
    destruct name; [discriminate|].
    destruct Hsuf as [->|[_ ->]]; reflexivity. }
  assert (Htokens : Forall (fun t => is_token t = true)
                      ("$var" :: kind :: width_text :: var_id
                       :: (name ++ suffix)%string :: rest))
    by (repeat constructor; assumption).
  unfold header_line.
  rewrite (@split_ws_join _ Htokens).
  cbn [join_spaces append startswith].
  change (Ascii.eqb "$" "$") with true; change (Ascii.eqb "v" "v") with true.
  change (Ascii.eqb "a" "a") with true; change (Ascii.eqb "r" "r") with true.
  cbn [andb List.length Nat.leb nth].
  rewrite Hkind, Hint; cbn [negb].
  rewrite (@split_ws_token _ Hns).
  unfold is_token in Hns; apply andb_prop in Hns; destruct Hns as [Hne _].
  apply negb_true_iff in Hne; rewrite Hne.
  rewrite split_on_base; [|exact Hnb|tauto].
  now rewrite (@find_name _ _ Hwanted).
Qed.

Lemma declaration_line_recorded_witness :
  header_line ["theta_x"]
    (join_spaces
       ("$var" :: "wire" :: "18" :: "!" :: ("theta_x" ++ "[17:0]")%string
        :: ["$end"]))
    empty_tables
  = {| signal_ids := set "!" "theta_x" (signal_ids empty_tables);
       signal_widths := set "!" 18 (signal_widths empty_tables) |}.
Proof.
  apply (@declaration_line_recorded ["theta_x"] "wire" "18" "!" "theta_x"
           "[17:0]" ["$end"] 18 empty_tables); try reflexivity.
  - right; split; reflexivity.
  - repeat constructor.
  - now left.
Defined.

(** ** The count of patterns *)

Lemma distinct_clipped_bound (patterns : list Z) :
  (List.length (nodup Z.eq_dec (np_clip 0 63 patterns)) <= 64)%nat
  /\ (List.length (nodup Z.eq_dec (np_clip 0 63 patterns))
      <= List.length patterns)%nat
  /\ (patterns <> [] ->
      (1 <= List.length (nodup Z.eq_dec (np_clip 0 63 patterns)))%nat).
Proof.
  split; [|split].
  - change 64%nat with (List.length (map Z.of_nat (seq 0 64))).
    apply NoDup_incl_length; [apply NoDup_nodup|].
    intros v Hv; apply nodup_In in Hv; unfold np_clip in Hv.
    apply in_map_iff in Hv; destruct Hv as [x [<- _]].
    apply in_map_iff; exists (Z.to_nat (Z.min (Z.max x 0) 63)); split.
    + apply Z2Nat.id; lia.
    + apply in_seq; lia.
  - apply Nat.le_trans with (List.length (np_clip 0 63 patterns)).
    + apply NoDup_incl_length; [apply NoDup_nodup|].
      intros v Hv; now apply nodup_In in Hv.
    + unfold np_clip; now rewrite length_map.
  - intros Hne; destruct patterns as [|v r]; [contradiction|].
    assert (Hin : In (Z.min (Z.max v 0) 63)
                    (nodup Z.eq_dec (np_clip 0 63 (v :: r))))
      by (apply nodup_In; now left).
    destruct (nodup Z.eq_dec (np_clip 0 63 (v :: r)));
      [contradiction|simpl; lia].
Qed.

(** The metric [unique_patterns] never exceeds 64, whatever values the
    pattern signal took (they are clipped to 0..63 first), and never the
    number of samples; it is 0 when the state has neither pattern
    signal, and at least 1 when the pattern signal it uses has a
    sample. *)
Theorem unique_patterns_bounds (state_data : dict (list Z)) :
  (unique_patterns state_data <= 64)%nat
  /\ (get "oscillator_derived_pattern" state_data = None ->
      get "phase_pattern" state_data = None ->
      unique_patterns state_data = O)
  /\ (forall patterns,
        get "oscillator_derived_pattern" state_data = Some patterns
        \/ (get "oscillator_derived_pattern" state_data = None
            /\ get "phase_pattern" state_data = Some patterns) ->
        (unique_patterns state_data <= List.length patterns)%nat
        /\ (patterns <> [] -> (1 <= unique_patterns state_data)%nat)).
Proof.
  unfold unique_patterns; split; [|split].
  - destruct (get "oscillator_derived_pattern" state_data) as [p|];
      [apply distinct_clipped_bound|].
    destruct (get "phase_pattern" state_data) as [p|];
      [apply distinct_clipped_bound|lia].
  - now intros -> ->.
  - intros patterns [->|[-> ->]]; split;
      apply (distinct_clipped_bound patterns).
Qed.

Lemma unique_patterns_bounds_witness :
  (unique_patterns phase_pattern_state <= 64)%nat
  /\ (get "oscillator_derived_pattern" phase_pattern_state = None ->
      get "phase_pattern" phase_pattern_state = None ->
      unique_patterns phase_pattern_state = O)
  /\ (forall patterns,
        get "oscillator_derived_pattern" phase_pattern_state = Some patterns
        \/ (get "oscillator_derived_pattern" phase_pattern_state = None
            /\ get "phase_pattern" phase_pattern_state = Some patterns) ->
        (unique_patterns phase_pattern_state <= List.length patterns)%nat
        /\ (patterns <> [] ->
            (1 <= unique_patterns phase_pattern_state)%nat)).
Proof.
  exact (unique_patterns_bounds phase_pattern_state).
Defined.
